(** * Cabbage search engine: the query pipeline, embedded and verified

    A shallow embedding of [cabbage/search_module.py], [cabbage/scraper.py],
    [cabbage/main_processor.py] and the endpoint of [cabbage/api_server.py].

    - Python values that cross the pipeline (strings, [None], the JSON body
      of the chat-completion reply, the empty dict) are one inductive type
      [Py.value].
    - Python exceptions are a [result] ([Ret] / [Raise]); code runs in a
      state-and-exception monad [M S A := S -> result A * S], with
      [try_except] and [try_finally] for the [try] statements.  The type
      [exn] holds instances of [Exception]; signals that derive only from
      [BaseException] (KeyboardInterrupt, task cancellation) are outside
      the model.
    - The state of the pipeline is the [trace] of its interactions with
      the outside world (search, browser sessions, extraction,
      summarisation, the HTTP post).  The outside world is an
      [environment] of oracles that answer from the trace so far, so that
      two fetches of one URL may differ.
    - A [dict] is an insertion-ordered association list: assigning to a
      key that is present keeps its position and replaces its value.
    - Strings are [string]; [str.strip] and [str.isspace] are modelled on
      code points below 256.
    - [logging] calls have no effect on control flow and are left out. *)

From Stdlib Require Import List String Ascii Bool Arith ZArith Lia.
Import ListNotations.

Set Implicit Arguments.
Set Warnings "-register-all".

(* ===================================================================== *)
(** ** Python values, strings, dicts and exceptions                       *)
(* ===================================================================== *)

Module Py.

Inductive value : Type :=
| VNone
| VBool (b : bool)
| VInt (z : Z)
| VStr (s : string)
| VList (l : list value)
| VDict (d : list (string * value)).

(** [bool(v)]. *)
Definition truthy (v : value) : bool :=
  match v with
  | VNone => false
  | VBool b => b
  | VInt z => negb (z =? 0)%Z
  | VStr s => negb (s =? EmptyString)%string
  | VList l => match l with [] => false | _ :: _ => true end
  | VDict d => match d with [] => false | _ :: _ => true end
  end.

(** Truthiness of a [str]: non-empty. *)
Definition truthy_str (s : string) : bool := negb (s =? EmptyString)%string.

(** Truthiness of a value that is [None] or a [str]. *)
Definition truthy_opt (o : option string) : bool :=
  match o with
  | None => false
  | Some s => truthy_str s
  end.

(** [str.isspace] on one character (code points below 256): TAB..CR,
    FS..US, space, NEL and NBSP. *)
Definition isspace (c : ascii) : bool :=
  let n := nat_of_ascii c in
  ((9 <=? n) && (n <=? 13)) || ((28 <=? n) && (n <=? 32))
  || (n =? 133) || (n =? 160).

Fixpoint lstrip (s : string) : string :=
  match s with
  | EmptyString => EmptyString
  | String c s' => if isspace c then lstrip s' else s
  end.

Fixpoint rstrip (s : string) : string :=
  match s with
  | EmptyString => EmptyString
  | String c s' =>
      match rstrip s' with
      | EmptyString => if isspace c then EmptyString else String c EmptyString
      | r => String c r
      end
  end.

(** [s.strip()]. *)
Definition strip (s : string) : string := rstrip (lstrip s).

(** [sep.join(parts)]. *)
Definition join (sep : string) (parts : list string) : string :=
  String.concat sep parts.

Definition newline : string := String "010"%char EmptyString.
Definition dquote : string := String "034"%char EmptyString.

(** Instances of [Exception] that the three modules can meet. *)
Inductive exn : Type :=
| TimeoutException            (* selenium *)
| WebDriverException          (* selenium *)
| ClientResponseError (status : Z)   (* aiohttp, HTTP status >= 400 *)
| ClientConnectionError       (* aiohttp transport *)
| TimeoutError                (* asyncio *)
| JSONDecodeError
| KeyError
| IndexError
| TypeError
| AttributeError
| OtherException (name : string).

Inductive result (A : Type) : Type :=
| Ret (a : A)
| Raise (e : exn).

Arguments Ret {A} a.
Arguments Raise {A} e.

(** *** Insertion-ordered dict *)

Definition dict (V : Type) : Type := list (string * V).

(** [d[k] = v]. *)
Fixpoint dict_set {V : Type} (k : string) (v : V) (d : dict V) : dict V :=
  match d with
  | [] => [(k, v)]
  | (k', v') :: d' =>
      if (k =? k')%string then (k', v) :: d'
      else (k', v') :: dict_set k v d'
  end.

(** [d.get(k)]. *)
Fixpoint dict_get {V : Type} (k : string) (d : dict V) : option V :=
  match d with
  | [] => None
  | (k', v') :: d' => if (k =? k')%string then Some v' else dict_get k d'
  end.

Definition keys {V : Type} (d : dict V) : list string := map fst d.
Definition values {V : Type} (d : dict V) : list V := map snd d.

(** *** Subscripts and methods used on the JSON reply *)

(** [v.get(k)]: only a dict has the method. *)
Definition py_get (v : value) (k : string) : result value :=
  match v with
  | VDict d => match dict_get k d with
               | Some x => Ret x
               | None => Ret VNone
               end
  | _ => Raise AttributeError
  end.

(** [v[k]] with a string key. *)
Definition getitem_str (v : value) (k : string) : result value :=
  match v with
  | VDict d => match dict_get k d with
               | Some x => Ret x
               | None => Raise KeyError
               end
  | _ => Raise TypeError
  end.

(** [v[0]].  The keys of a decoded JSON object are strings, so [0] is
    never a key of a dict. *)
Definition getitem_0 (v : value) : result value :=
  match v with
  | VList [] => Raise IndexError
  | VList (x :: _) => Ret x
  | VStr EmptyString => Raise IndexError
  | VStr (String c _) => Ret (VStr (String c EmptyString))
  | VDict _ => Raise KeyError
  | _ => Raise TypeError
  end.

(** [v.strip()]: only a str has the method. *)
Definition py_strip (v : value) : result string :=
  match v with
  | VStr s => Ret (strip s)
  | _ => Raise AttributeError
  end.

(** *** The state-and-exception monad *)

Definition M (S A : Type) : Type := S -> result A * S.

Definition ret {S A : Type} (a : A) : M S A := fun s => (Ret a, s).

Definition raise {S A : Type} (e : exn) : M S A := fun s => (Raise e, s).

Definition bind {S A B : Type} (m : M S A) (k : A -> M S B) : M S B :=
  fun s =>
    match m s with
    | (Ret a, s') => k a s'
    | (Raise e, s') => (Raise e, s')
    end.

(** Lift a pure fallible computation. *)
Definition of_result {S A : Type} (r : result A) : M S A := fun s => (r, s).

(** [try: body  except Exception as e: handler e]. *)
Definition try_except {S A : Type} (body : M S A) (handler : exn -> M S A)
  : M S A :=
  fun s =>
    match body s with
    | (Ret a, s') => (Ret a, s')
    | (Raise e, s') => handler e s'
    end.

(** [try: body  finally: final].  An exception of [final] replaces the
    outcome of [body]. *)
Definition try_finally {S A : Type} (body : M S A) (final : M S unit)
  : M S A :=
  fun s =>
    let (r, s') := body s in
    match final s' with
    | (Ret _, s'') => (r, s'')
    | (Raise e, s'') => (Raise e, s'')
    end.

End Py.

Import Py.

Declare Scope py_scope.
Delimit Scope py_scope with py.
Notation "x <- m ;; k" := (bind m (fun x => k))
  (at level 100, m at next level, right associativity) : py_scope.
Notation "m ;;; k" := (bind m (fun _ => k))
  (at level 100, right associativity) : py_scope.
Open Scope py_scope.

(* ===================================================================== *)
(** ** The outside world                                                  *)
(* ===================================================================== *)

Module World.

(** The JSON payload and headers of the chat-completion request. *)
Record request : Type := {
  req_url : string;
  req_authorization : string;
  req_model : string;
  req_messages : list (string * string);     (* role, content *)
  req_max_tokens : Z
}.

(** What [session.post] hands back: a status line and a body that
    [response.json()] decodes or fails to decode. *)
Record response : Type := {
  status : Z;
  json_body : result value
}.

(** Interactions of one run, oldest first. *)
Inductive event : Type :=
| EvSearch (query : string) (num_results : Z)
| EvScrape (url : string)            (* scrape_website entered *)
| EvDriverStart (d : nat)            (* webdriver.Chrome(...) returned d *)
| EvDriverQuit (d : nat)             (* d.quit() returned *)
| EvExtract (url : string)           (* trafilatura.extract called *)
| EvFirstSummary (corpus : string) (summary : string)
                                     (* summarize_text(corpus, n) returned *)
| EvPost (req : request).            (* session.post(...) *)

Definition trace : Type := list event.

(** One search hit of the provider: a dict of strings. *)
Definition hit : Type := dict string.

Record environment : Type := {
  (** [list(DDGS().text(query, max_results=n))] *)
  ddgs_text : trace -> string -> Z -> result (list hit);
  (** [webdriver.Chrome(service=..., options=...)]: [Some e] when no
      session could be started. *)
  chrome_start : trace -> option exn;
  (** [driver.get(url)] *)
  navigate : trace -> nat -> string -> option exn;
  (** [WebDriverWait(driver, timeout).until(presence of body)] *)
  wait_body : trace -> nat -> Z -> option exn;
  (** [driver.page_source] *)
  page_source : trace -> nat -> result string;
  (** [driver.quit()]: [Some e] when the shutdown raises. *)
  quit_error : trace -> nat -> option exn;
  (** [trafilatura.extract(html, include_comments=False,
      include_tables=False)]: a str or [None], or an exception. *)
  trafilatura_extract : string -> result (option string);
  (** The sumy chain of [summarize_text]: parser, stemmer, LSA
      summarizer; the selected sentences as strings. *)
  lsa_sentences : string -> Z -> result (list string);
  (** [os.environ.get("MISTRAL_API_KEY")] *)
  mistral_api_key : option string;
  (** [session.post(mistral_api_url, headers=..., json=...)] *)
  session_post : trace -> request -> result response
}.

Definition emit (e : event) : M trace unit := fun t => (Ret tt, t ++ [e]).

(** An oracle call that returns nothing or raises. *)
Definition attempt (o : trace -> option exn) : M trace unit :=
  fun t => match o t with
           | Some e => (Raise e, t)
           | None => (Ret tt, t)
           end.

(** An oracle call that returns a value or raises. *)
Definition ask {A : Type} (o : trace -> result A) : M trace A :=
  fun t => (o t, t).

End World.

Import World.

(* ===================================================================== *)
(** ** search_module.py                                                   *)
(* ===================================================================== *)

Module SearchModule.

Section WithEnvironment.
Variable env : environment.

(** [[result['href'] for result in results]] *)
Fixpoint hrefs (results : list hit) : result (list string) :=
  match results with
  | [] => Ret []
  | r :: rest =>
      match dict_get "href" r with
      | None => Raise KeyError
      | Some h =>
          match hrefs rest with
          | Ret hs => Ret (h :: hs)
          | Raise e => Raise e
          end
      end
  end.

(** [search_urls(query, num_results=5)].  The body of the [try] yields
    the value of [urls] it leaves behind; on an exception the handler
    only logs and [urls] still holds its initial []. *)
Definition search_urls (query : string) (num_results : Z)
  : M trace (list string) :=
  emit (EvSearch query num_results) ;;;
  let urls : list string := [] in
  try_except
    (results <- ask (fun t => ddgs_text env t query num_results) ;;
     match results with
     | _ :: _ => of_result (hrefs results)
     | [] => ret urls
     end)
    (fun _ => ret urls).

End WithEnvironment.

End SearchModule.

(* ===================================================================== *)
(** ** scraper.py                                                         *)
(* ===================================================================== *)

Module Scraper.

Definition DEFAULT_WAIT_TIMEOUT : Z := 10.

(** The two locals of [scrape_website] that are assigned inside the
    [try] and read after it. *)
Record frame : Type := {
  html_content : option string;
  driver : option nat
}.

Definition locals : Type := (frame * trace)%type.

(** Run a world interaction inside the function body. *)
Definition world {A : Type} (m : M trace A) : M locals A :=
  fun s => let (r, t') := m (snd s) in (r, (fst s, t')).

Definition get_frame : M locals frame := fun s => (Ret (fst s), s).

Definition set_driver (d : nat) : M locals unit :=
  fun s => (Ret tt, ({| html_content := html_content (fst s);
                        driver := Some d |}, snd s)).

Definition set_html_content (h : string) : M locals unit :=
  fun s => (Ret tt, ({| html_content := Some h;
                        driver := driver (fst s) |}, snd s)).

Section WithEnvironment.
Variable env : environment.

(** [webdriver.Chrome(service=service, options=chrome_options)].  The
    session is named by the length of the trace at its start. *)
Definition webdriver_Chrome : M trace nat :=
  fun t => match chrome_start env t with
           | Some e => (Raise e, t)
           | None => (Ret (List.length t), t ++ [EvDriverStart (List.length t)])
           end.

Definition driver_get (d : nat) (url : string) : M trace unit :=
  attempt (fun t => navigate env t d url).

Definition wait_until_body (d : nat) (wait_timeout : Z) : M trace unit :=
  attempt (fun t => wait_body env t d wait_timeout).

Definition driver_page_source (d : nat) : M trace string :=
  ask (fun t => page_source env t d).

(** [driver.quit()].  The session counts as released when the call
    returns; when it raises, nothing is recorded. *)
Definition driver_quit (d : nat) : M trace unit :=
  fun t => match quit_error env t d with
           | Some e => (Raise e, t)
           | None => (Ret tt, t ++ [EvDriverQuit d])
           end.

(** Lines 51-79: the body of the [try]. *)
Definition scrape_try (url : string) (wait_timeout : Z) : M locals unit :=
  d <- world webdriver_Chrome ;;
  set_driver d ;;;
  world (driver_get d url) ;;;
  world (wait_until_body d wait_timeout) ;;;
  (* time.sleep(1) *)
  src <- world (driver_page_source d) ;;
  set_html_content src.

(** Lines 81-86: the three handlers only log. *)
Definition scrape_except (e : exn) : M locals unit :=
  match e with
  | TimeoutException => ret tt
  | WebDriverException => ret tt
  | _ => ret tt
  end.

(** Lines 88-91: [finally: if driver: driver.quit()]. *)
Definition scrape_finally : M locals unit :=
  f <- get_frame ;;
  match driver f with
  | Some d => world (driver_quit d)
  | None => ret tt
  end.

Definition scrape_body (url : string) (wait_timeout : Z)
  : M locals (option string) :=
  try_finally (try_except (scrape_try url wait_timeout) scrape_except)
              scrape_finally ;;;
  f <- get_frame ;;
  ret (html_content f).

(** [scrape_website(url, wait_timeout=DEFAULT_WAIT_TIMEOUT)] *)
Definition scrape_website (url : string) (wait_timeout : Z)
  : M trace (option string) :=
  fun t =>
    let (r, s) :=
      scrape_body url wait_timeout
        ({| html_content := None; driver := None |}, t ++ [EvScrape url]) in
    (r, snd s).

End WithEnvironment.

End Scraper.

(* ===================================================================== *)
(** ** main_processor.py                                                  *)
(* ===================================================================== *)

Module MainProcessor.

Import SearchModule Scraper.
Local Open Scope string_scope.

Definition mistral_api_url : string :=
  "https://api.mistral.ai/v1/chat/completions".

(** Lines 193-201. *)
Definition system_prompt (query : string) : string :=
  "You are an expert summarizer tasked with refining an initial summary. The provided text is the result of a web search for the query "
  ++ dquote ++ query ++ dquote ++
  " and has already been summarized once, but might contain incomplete sentences or unclear phrasing."
  ++ newline ++ newline ++
  "Your goal is to produce a final, comprehensive, and coherent summary that directly answers the query "
  ++ dquote ++ query ++ dquote ++
  ", based *only* on the information provided in the initial summary text."
  ++ newline ++ newline ++
  "- Ensure **all key information relevant to the query** from the provided text is included. Do not omit relevant details."
  ++ newline ++
  "- If parts of the initial summary are too incomplete or unclear to be accurately represented, **ignore those specific parts**. Do not add information not present in the provided text."
  ++ newline ++
  "- Focus on summarizing the clear and complete information relevant to the query, ensuring the final output is well-written and flows logically."
  ++ newline ++
  "- Focus only on content relevant to " ++ dquote ++ query ++ dquote ++
  " and ignore irrelevant details or sections." ++ newline.

(** Lines 202-207. *)
Definition user_prompt (query first_summary : string) : string :=
  "Initial Summary Text to Refine:" ++ newline ++ "---" ++ newline
  ++ first_summary ++ newline ++ "---" ++ newline ++ newline ++
  "Based on the query " ++ dquote ++ query ++ dquote ++
  ", provide the refined and comprehensive summary:".

(** [response.raise_for_status()] *)
Definition raise_for_status (r : response) : M trace unit :=
  if (400 <=? status r)%Z then raise (ClientResponseError (status r))
  else ret tt.

(** The generator of line 179, run over [processed_content.values()]:
    [text for text in ... if text and text.strip()]. *)
Fixpoint kept_texts (texts : list (option string)) : list string :=
  match texts with
  | [] => []
  | None :: rest => kept_texts rest
  | Some text :: rest =>
      if truthy_str text && truthy_str (strip text)
      then text :: kept_texts rest
      else kept_texts rest
  end.

Section WithEnvironment.
Variable env : environment.

(** [summarize_text(text, sentences_count)], lines 95-115. *)
Definition summarize_text (text : value) (sentences_count : Z)
  : M trace string :=
  match text with
  | VStr s =>
      if negb (truthy text) || (String.length (strip s) =? 0)%nat
      then ret EmptyString
      else
        try_except
          (summary_sentences <-
             of_result (lsa_sentences env s sentences_count) ;;
           ret (join " " summary_sentences))
          (fun _ => ret EmptyString)
  | _ => ret EmptyString            (* not text or not isinstance(text, str) *)
  end.

(** Lines 141-150: [for i, url in enumerate(urls)]. *)
Fixpoint fetch_loop (urls : list string) (scraped_data : dict (option string))
  : M trace (dict (option string)) :=
  match urls with
  | [] => ret scraped_data
  | url :: rest =>
      html_content <- scrape_website env url DEFAULT_WAIT_TIMEOUT ;;
      fetch_loop rest (dict_set url html_content scraped_data)
  end.

(** Lines 155-169: [for url, html_content in scraped_data.items()]. *)
Fixpoint extract_loop (items : list (string * option string))
    (extracted_texts : dict (option string))
  : M trace (dict (option string)) :=
  match items with
  | [] => ret extracted_texts
  | (url, html_content) :: rest =>
      match html_content with
      | Some html =>
          if truthy_str html then
            emit (EvExtract url) ;;;
            extracted_text <- of_result (trafilatura_extract env html) ;;
            if truthy_opt extracted_text
            then extract_loop rest (dict_set url extracted_text extracted_texts)
            else extract_loop rest (dict_set url None extracted_texts)
          else extract_loop rest (dict_set url None extracted_texts)
      | None => extract_loop rest (dict_set url None extracted_texts)
      end
  end.

(** Line 179. *)
Definition combine (processed_content : dict (option string)) : string :=
  join (newline ++ newline) (kept_texts (values processed_content)).

(** Lines 209-223: the request of the refinement call. *)
Definition mistral_request (query first_summary mistral_model_name : string)
    (mistral_max_tokens : Z) : request :=
  {| req_url := mistral_api_url;
     req_authorization :=
       "Bearer " ++ match mistral_api_key env with
                    | Some k => k
                    | None => "None"
                    end;
     req_model := mistral_model_name;
     req_messages := [("system", system_prompt query);
                      ("user", user_prompt query first_summary)];
     req_max_tokens := mistral_max_tokens |}.

(** Lines 226-236: the body of the [try]; its value is what it leaves
    in [final_summary]. *)
Definition mistral_try (query first_summary mistral_model_name : string)
    (mistral_max_tokens : Z) : M trace string :=
  let req :=
    mistral_request query first_summary mistral_model_name
      mistral_max_tokens in
  emit (EvPost req) ;;;
  response <- ask (fun t => session_post env t req) ;;
  raise_for_status response ;;;
  json_response <- of_result (json_body response) ;;
  choices <- of_result (py_get json_response "choices") ;;
  if truthy choices then
    c <- of_result (getitem_str json_response "choices") ;;
    c0 <- of_result (getitem_0 c) ;;
    message <- of_result (getitem_str c0 "message") ;;
    content <- of_result (getitem_str message "content") ;;
    of_result (py_strip content)
  else ret first_summary.

(** Lines 238-250: the two handlers.  [ClientResponseError] has no
    [text] method, so the attempt to read the error body raises
    [AttributeError], which the inner [except Exception: pass] drops. *)
Definition mistral_except (first_summary : string) (e : exn)
  : M trace string :=
  match e with
  | ClientResponseError _ =>
      try_except (raise AttributeError) (fun _ => ret tt) ;;;
      ret first_summary
  | _ => ret first_summary
  end.

(** Lines 189-256: the second summarization. *)
Definition second_summarization (query first_summary mistral_model_name : string)
    (mistral_max_tokens : Z) : M trace string :=
  if truthy_str first_summary && truthy_opt (mistral_api_key env) then
    try_except
      (mistral_try query first_summary mistral_model_name mistral_max_tokens)
      (mistral_except first_summary)
  else if negb (truthy_str first_summary) then ret EmptyString
  else ret first_summary.

(** [process_query], lines 117-261. *)
Definition process_query (query : string) (num_results summary_sentences : Z)
    (mistral_model_name : string) (mistral_max_tokens : Z) : M trace value :=
  urls <- search_urls env query num_results ;;
  match urls with
  | [] => ret (VDict [])                                  (* return {} *)
  | _ :: _ =>
      scraped_data <- fetch_loop urls [] ;;
      extracted_texts <- extract_loop scraped_data [] ;;
      let processed_content := extracted_texts in
      let combined_text := combine processed_content in
      final_summary <-
        (if negb (truthy_str combined_text) then ret EmptyString
         else
           first_summary <-
             summarize_text (VStr combined_text) summary_sentences ;;
           emit (EvFirstSummary combined_text first_summary) ;;;
           second_summarization query first_summary mistral_model_name
             mistral_max_tokens) ;;
      (* await asyncio.sleep(0.1) *)
      ret (VStr final_summary)
  end.

End WithEnvironment.

End MainProcessor.

(* ===================================================================== *)
(** ** Observations on traces and values                                  *)
(* ===================================================================== *)

Module Observe.

Definition is_scrape (e : event) : bool :=
  match e with EvScrape _ => true | _ => false end.

Definition is_extract (e : event) : bool :=
  match e with EvExtract _ => true | _ => false end.

Definition is_post (e : event) : bool :=
  match e with EvPost _ => true | _ => false end.

(** How many times [scrape_website] was entered. *)
Definition scrape_calls (t : trace) : nat := List.length (filter is_scrape t).

(** How many times [trafilatura.extract] was called. *)
Definition extract_calls (t : trace) : nat :=
  List.length (filter is_extract t).

(** The refinement requests that were sent. *)
Definition post_calls (t : trace) : trace := filter is_post t.

(** The corpora that were handed to the primary summarizer. *)
Definition summarized_corpora (t : trace) : list string :=
  flat_map (fun e => match e with
                     | EvFirstSummary corpus _ => [corpus]
                     | _ => []
                     end) t.

Fixpoint remove_first (d : nat) (l : list nat) : list nat :=
  match l with
  | [] => []
  | x :: l' => if Nat.eqb d x then l' else x :: remove_first d l'
  end.

Definition driver_step (live : list nat) (e : event) : list nat :=
  match e with
  | EvDriverStart d => d :: live
  | EvDriverQuit d => remove_first d live
  | _ => live
  end.

(** The browser sessions started and not yet quit. *)
Definition open_drivers (t : trace) : list nat := fold_left driver_step t [].

(** The distinct elements of a list, each at its first position: the key
    order of a dict filled by successive assignments. *)
Fixpoint first_occurrences (l : list string) : list string :=
  match l with
  | [] => []
  | x :: l' =>
      x :: filter (fun y => negb (y =? x)%string) (first_occurrences l')
  end.

(** A stretch of trace that holds [scrapes] calls of [scrape_website]
    and [extracts] calls of the extractor, and neither a summarization
    nor a refinement request. *)
Record quiet (evs : trace) (scrapes extracts : nat) : Prop := {
  quiet_scrapes : scrape_calls evs = scrapes;
  quiet_extracts : extract_calls evs = extracts;
  quiet_posts : post_calls evs = [];
  quiet_corpora : summarized_corpora evs = []
}.

(** The strings other than [x], and those outside [ks]. *)
Definition differs (x : string) : string -> bool :=
  fun y => negb (y =? x)%string.

Definition outside (ks : list string) : string -> bool :=
  fun y => negb (existsb (String.eqb y) ks).

(** The keys of a dict after [d[k] = ...]. *)
Definition add_key (k : string) (ks : list string) : list string :=
  if existsb (String.eqb k) ks then ks else ks ++ [k].

(** Every character is whitespace (true of the empty string). *)
Fixpoint all_space (s : string) : bool :=
  match s with
  | EmptyString => true
  | String c s' => isspace c && all_space s'
  end.

(** The texts of a list of extraction outcomes that are neither [None]
    nor made of whitespace only (the empty string included). *)
Definition nonblank_texts (texts : list (option string)) : list string :=
  flat_map (fun text => match text with
                        | Some s => if all_space s then [] else [s]
                        | None => []
                        end) texts.

(** The texts of a list of extraction outcomes that are neither [None]
    nor the empty string. *)
Definition nonempty_texts (texts : list (option string)) : list string :=
  flat_map (fun text => match text with
                        | Some EmptyString => []
                        | Some s => [s]
                        | None => []
                        end) texts.

(** The completion carried by a reply of the documented shape
    [{choices: [{message: {content: <str>}}, ...]}]; [None] for any
    other JSON value. *)
Definition completion_of (j : value) : option string :=
  match j with
  | VDict d =>
      match dict_get "choices" d with
      | Some (VList (VDict c0 :: _)) =>
          match dict_get "message" c0 with
          | Some (VDict m) =>
              match dict_get "content" m with
              | Some (VStr s) => Some s
              | _ => None
              end
          | _ => None
          end
      | _ => None
      end
  | _ => None
  end.

End Observe.

Import Observe.

(* ===================================================================== *)
(** ** Program points of [process_query]                                  *)
(* ===================================================================== *)

Module Run.

Import SearchModule MainProcessor.

(** What the extraction loop stores for a fetch outcome, when the
    extractor returns: [None] unless the markup is a non-empty string
    from which the extractor gets a non-empty text. *)
Definition extraction_outcome (env : environment) (html_content : option string)
  : option string :=
  match html_content with
  | Some html =>
      if truthy_str html then
        match trafilatura_extract env html with
        | Ret extracted_text =>
            if truthy_opt extracted_text then extracted_text else None
        | Raise _ => None
        end
      else None
  | None => None
  end.

(** The run of [process_query] from trace [t] gets the non-empty list
    [urls] from the search, leaves the fetch loop with [scraped_data]
    and the extraction loop with [extracted_texts], at trace [t3]
    (line 175). *)
Definition reaches_corpus (env : environment) (query : string)
    (num_results : Z) (t : trace) (urls : list string)
    (scraped_data extracted_texts : dict (option string)) (t3 : trace)
  : Prop :=
  exists t1 t2 : trace,
    search_urls env query num_results t = (Ret urls, t1) /\
    urls <> [] /\
    fetch_loop env urls [] t1 = (Ret scraped_data, t2) /\
    extract_loop env scraped_data [] t2 = (Ret extracted_texts, t3).

(** The run goes on with a non-empty [corpus] and gets [first_summary]
    from [summarize_text]; [t4] is the trace at line 189. *)
Definition reaches_refinement (env : environment) (query : string)
    (num_results summary_sentences : Z) (t : trace)
    (corpus first_summary : string) (t4 : trace) : Prop :=
  exists (urls : list string) (scraped_data extracted_texts : dict (option string))
         (t3 : trace),
    reaches_corpus env query num_results t urls scraped_data
      extracted_texts t3 /\
    corpus = combine extracted_texts /\
    corpus <> EmptyString /\
    summarize_text env (VStr corpus) summary_sentences t3
      = (Ret first_summary, t3) /\
    t4 = t3 ++ [EvFirstSummary corpus first_summary].

(** Refinement is skipped or fails for the request [req] sent at trace
    [t]. *)
Inductive refinement_unavailable (env : environment) (t : trace)
    (req : request) : Prop :=
| credential_absent :
    truthy_opt (mistral_api_key env) = false ->
    refinement_unavailable env t req
| transport_error (e : exn) :           (* connection error, timeout *)
    session_post env t req = Raise e ->
    refinement_unavailable env t req
| http_error (r : response) :
    session_post env t req = Ret r ->
    (400 <= status r)%Z ->
    refinement_unavailable env t req
| malformed_body (r : response) (e : exn) :
    session_post env t req = Ret r ->
    json_body r = Raise e ->
    refinement_unavailable env t req
| no_usable_completion (r : response) (j : value) :
    session_post env t req = Ret r ->
    json_body r = Ret j ->
    completion_of j = None ->
    refinement_unavailable env t req.

(** The fetch invariant read on the stored outcomes: one entry of
    [scraped_data] per entry of the search result, and no more
    extraction outcomes than search results. *)
Definition one_outcome_per_entry (env : environment) (query : string)
    (num_results : Z) (t : trace) : Prop :=
  forall (urls : list string)
         (scraped_data extracted_texts : dict (option string)) (t3 : trace),
    reaches_corpus env query num_results t urls scraped_data
      extracted_texts t3 ->
    List.length scraped_data = List.length urls /\
    List.length extracted_texts <= List.length urls.

(** The corpus read as the join of every extracted text that is
    neither [None] nor the empty string. *)
Definition corpus_joins_nonempty_texts (env : environment) (query : string)
    (num_results : Z) (t : trace) : Prop :=
  forall (urls : list string)
         (scraped_data extracted_texts : dict (option string)) (t3 : trace),
    reaches_corpus env query num_results t urls scraped_data
      extracted_texts t3 ->
    combine extracted_texts
    = join (newline ++ newline) (nonempty_texts (values extracted_texts)).

End Run.

Import Run.

(* ===================================================================== *)
(** ** Concrete environments                                              *)
(* ===================================================================== *)

Module Scenarios.

Local Open Scope string_scope.

(** The URL of the latest [scrape_website] call of a trace. *)
Fixpoint current_url (t : trace) (acc : string) : string :=
  match t with
  | [] => acc
  | EvScrape u :: t' => current_url t' u
  | _ :: t' => current_url t' acc
  end.

(** A world where the provider answers [search], every browser session
    starts and shuts down, pages named by [down] never show a body,
    every other page has the markup [<html>url</html>], the extractor
    returns [extract] of the markup, and the refinement endpoint answers
    [reply]. *)
Definition site (search : result (list hit)) (down : string -> bool)
    (extract : string -> option string)
    (sentences : string -> Z -> result (list string))
    (key : option string) (reply : result response) : environment :=
  {| ddgs_text := fun _ _ _ => search;
     chrome_start := fun _ => None;
     navigate := fun _ _ _ => None;
     wait_body := fun t _ _ =>
       if down (current_url t EmptyString) then Some TimeoutException else None;
     page_source := fun t _ => Ret ("<html>" ++ current_url t EmptyString ++ "</html>");
     quit_error := fun _ _ => None;
     trafilatura_extract := fun html => Ret (extract html);
     lsa_sentences := sentences;
     mistral_api_key := key;
     session_post := fun _ _ => reply |}.

Definition hit_of (url : string) : hit := [("title", "t"); ("href", url)].

(** The text between [<html>] and [</html>]. *)
Definition inner_text (html : string) : option string :=
  Some (substring 6 (String.length html - 13) html).

Definition one_sentence (text : string) (n : Z) : result (list string) :=
  Ret [text].

(** The provider fails. *)
Definition env_provider_down : environment :=
  site (Raise (OtherException "RatelimitException")) (fun _ => false)
       inner_text one_sentence None (Raise ClientConnectionError).

(** The provider finds nothing. *)
Definition env_no_results : environment :=
  site (Ret []) (fun _ => false) inner_text one_sentence None
       (Raise ClientConnectionError).

(** The provider lists one URL twice. *)
Definition env_duplicate : environment :=
  site (Ret [hit_of "u"; hit_of "u"]) (fun _ => false) inner_text
       one_sentence None (Raise ClientConnectionError).

(** Three pages, the second one times out; no credential. *)
Definition env_three_pages : environment :=
  site (Ret [hit_of "a"; hit_of "b"; hit_of "c"])
       (fun u => (u =? "b")) inner_text one_sentence None
       (Raise ClientConnectionError).

(** One page whose extracted text is a single space. *)
Definition env_blank_page : environment :=
  site (Ret [hit_of "u"]) (fun _ => false) (fun _ => Some " ")
       one_sentence None (Raise ClientConnectionError).

(** One page, a credential, and an endpoint that answers HTTP 500. *)
Definition env_http_500 : environment :=
  site (Ret [hit_of "a"]) (fun _ => false) inner_text one_sentence
       (Some "key")
       (Ret {| status := 500; json_body := Raise JSONDecodeError |}).

(** One page whose summarisation machinery fails. *)
Definition env_lsa_fails : environment :=
  site (Ret [hit_of "a"]) (fun _ => false) inner_text
       (fun _ _ => Raise (OtherException "LookupError")) None
       (Raise ClientConnectionError).

(** Two pages in which the extractor finds no main content. *)
Definition env_no_main_content : environment :=
  site (Ret [hit_of "a"; hit_of "b"]) (fun _ => false) (fun _ => None)
       one_sentence (Some "key") (Raise ClientConnectionError).

(** One page, a credential, and a reply of the documented shape. *)
Definition env_refined : environment :=
  site (Ret [hit_of "a"]) (fun _ => false) inner_text one_sentence
       (Some "key")
       (Ret {| status := 200;
               json_body :=
                 Ret (VDict
                   [("id", VStr "cmpl-1");
                    ("choices",
                     VList [VDict
                       [("index", VInt 0);
                        ("message",
                         VDict [("role", VStr "assistant");
                                ("content", VStr " Refined. ")])]])]) |}).

End Scenarios.


(* ===================================================================== *)
(** ** main_processor.py: configuration                                   *)
(* ===================================================================== *)

Module Config.

Local Open Scope string_scope.

(** A Python dict whose keys are any hashable values: the configuration
    can be updated from arbitrary decoded JSON. *)
Definition pydict : Type := list (value * value).

(** Lists and dicts cannot be keys. *)
Definition hashable (k : value) : bool :=
  match k with
  | VList _ | VDict _ => false
  | _ => true
  end.

Definition as_number (k : value) : option Z :=
  match k with
  | VBool b => Some (if b then 1 else 0)%Z
  | VInt z => Some z
  | _ => None
  end.

(** Equality of keys: [True == 1] and [False == 0]. *)
Definition key_eqb (k k' : value) : bool :=
  match k, k' with
  | VNone, VNone => true
  | VStr s, VStr s' => (s =? s')%string
  | _, _ =>
      match as_number k, as_number k' with
      | Some a, Some b => (a =? b)%Z
      | _, _ => false
      end
  end.

(** [d[k] = v] *)
Fixpoint pd_set (k v : value) (d : pydict) : pydict :=
  match d with
  | [] => [(k, v)]
  | (k', v') :: d' =>
      if key_eqb k k' then (k', v) :: d' else (k', v') :: pd_set k v d'
  end.

(** [d.get(k)] *)
Fixpoint pd_get (k : value) (d : pydict) : option value :=
  match d with
  | [] => None
  | (k', v') :: d' => if key_eqb k k' then Some v' else pd_get k d'
  end.

(** [d.get(k, default)] *)
Definition pd_get_default (k : value) (default : value) (d : pydict)
  : value :=
  match pd_get k d with
  | Some v => v
  | None => default
  end.

(** Lines 43-48. *)
Definition DEFAULT_CONFIG : pydict :=
  [(VStr "search_results_count", VInt 5);
   (VStr "summary_sentences_count", VInt 50);
   (VStr "mistral_model", VStr "mistral-small-latest");
   (VStr "mistral_max_tokens", VInt 150)].

(** The key and the value that [dict.update] reads from one element of
    a sequence: the element must itself be iterable, with exactly two
    items.  Iterating a str gives its characters, iterating a dict its
    keys. *)
Definition pair_of (x : value) : result (value * value) :=
  match x with
  | VList [k; v] => Ret (k, v)
  | VList _ => Raise (OtherException "ValueError")
  | VStr (String a (String b EmptyString)) =>
      Ret (VStr (String a EmptyString), VStr (String b EmptyString))
  | VStr _ => Raise (OtherException "ValueError")
  | VDict [(k1, _); (k2, _)] => Ret (VStr k1, VStr k2)
  | VDict _ => Raise (OtherException "ValueError")
  | _ => Raise TypeError
  end.

(** [config.update(seq)] for a sequence of pairs. *)
Fixpoint update_from_pairs (seq : list value) (config : pydict)
  : result pydict :=
  match seq with
  | [] => Ret config
  | x :: rest =>
      match pair_of x with
      | Raise e => Raise e
      | Ret (k, v) =>
          if hashable k then update_from_pairs rest (pd_set k v config)
          else Raise TypeError
      end
  end.

(** [config.update(other)] for a dict:
    [for k in other.keys(): config[k] = other[k]]. *)
Definition update_from_dict (other : dict value) (config : pydict)
  : pydict :=
  fold_left (fun acc k =>
               match dict_get k other with
               | Some v => pd_set (VStr k) v acc
               | None => acc
               end)
            (keys other) config.

(** [config.update(config_data)] on whatever the file decodes to. *)
Definition py_update (config : pydict) (config_data : value)
  : result pydict :=
  match config_data with
  | VDict other => Ret (update_from_dict other config)
  | VList seq => update_from_pairs seq config
  | VStr s => update_from_pairs
                (map (fun c => VStr (String c EmptyString))
                     (list_ascii_of_string s)) config
  | _ => Raise TypeError                          (* not iterable *)
  end.

Section WithFiles.
(** The directory of main_processor.py. *)
Variable SCRIPT_DIR : string.
(** [with open(path, 'r') as f: json.load(f)]: the decoded content, or
    the exception of [open] or of the decoder. *)
Variable read_json : string -> result value.

(** [load_config(config_path=None)], lines 63-88.  The three handlers
    differ by their log line only. *)
Definition load_config {S : Type} (config_path : option string)
  : M S pydict :=
  let config_path :=
    match config_path with
    | None => SCRIPT_DIR ++ "/config.json"
    | Some p => p
    end in
  try_except
    (config_data <- of_result (read_json config_path) ;;
     let config := DEFAULT_CONFIG in               (* DEFAULT_CONFIG.copy() *)
     config <- of_result (py_update config config_data) ;;
     ret config)
    (fun e =>
       match e with
       | OtherException "FileNotFoundError" => ret DEFAULT_CONFIG
       | JSONDecodeError => ret DEFAULT_CONFIG
       | _ => ret DEFAULT_CONFIG
       end).

End WithFiles.

End Config.

(* ===================================================================== *)
(** ** api_server.py                                                      *)
(* ===================================================================== *)

Module ApiServer.

Import MainProcessor Config.
Local Open Scope string_scope.

(** [DEFAULT_CONFIG[key]] for a key of the defaults. *)
Definition default_of (key : string) : value :=
  pd_get_default (VStr key) VNone DEFAULT_CONFIG.

(** [config.get(key, DEFAULT_CONFIG[key])] *)
Definition setting (key : string) (config : pydict) : value :=
  pd_get_default (VStr key) (default_of key) config.

(** Lines 18-22: the four settings read at startup from the loaded
    configuration. *)
Definition startup_settings (config : pydict)
  : value * value * value * value :=
  (setting "search_results_count" config,
   setting "summary_sentences_count" config,
   setting "mistral_model" config,
   setting "mistral_max_tokens" config).

Section WithEnvironment.
Variable env : environment.
(** The module-level settings of lines 19-22. *)
Variable num_results : Z.
Variable summary_sentences : Z.
Variable mistral_model : string.
Variable mistral_tokens : Z.

(** [perform_search(query)], lines 24-58.  The handler turns any
    exception into an HTTPException with status 500. *)
Definition perform_search (query : string) : M trace value :=
  try_except
    (final_summary <-
       process_query env query num_results summary_sentences mistral_model
         mistral_tokens ;;
     if truthy final_summary then
       ret (VDict [("query", VStr query); ("summary", final_summary)])
     else
       ret (VDict [("query", VStr query); ("summary", VNone);
                   ("message",
                    VStr "Could not generate a summary for this query.")]))
    (fun e => raise (OtherException "HTTPException")).

End WithEnvironment.

End ApiServer.

(* ===================================================================== *)
(** ** Further observations and environments                              *)
(* ===================================================================== *)

Module Observe2.

(** A stretch of trace without a summarization and without a
    refinement request. *)
Definition silent (evs : trace) : Prop :=
  post_calls evs = [] /\ summarized_corpora evs = [].

(** The fetch outcomes that reach the extractor: markup that is neither
    [None] nor empty. *)
Definition has_markup (entry : string * option string) : bool :=
  truthy_opt (snd entry).

(** The hrefs of a list of hits, [None] where the key is missing. *)
Definition href_of (r : hit) : option string := dict_get "href" r.

(** What [summarize_text] makes of a corpus: nothing when the corpus is
    blank or sumy raises, the chosen sentences joined by spaces
    otherwise. *)
Definition primary_summary (env : environment) (corpus : string)
    (sentences_count : Z) : string :=
  if all_space corpus then EmptyString
  else match lsa_sentences env corpus sentences_count with
       | Ret sentences => join " " sentences
       | Raise _ => EmptyString
       end.

(** The refinement requests of a run whose first summary is
    [first_summary]: one when the summary is not empty and a credential
    is set, none otherwise. *)
Definition refinement_posts (env : environment)
    (query first_summary model : string) (max_tokens : Z) : trace :=
  if truthy_str first_summary && truthy_opt (mistral_api_key env)
  then [EvPost (MainProcessor.mistral_request env query first_summary model
                  max_tokens)]
  else [].

(** The file that [load_config] reads: config.json beside the script
    when no path is given. *)
Definition config_file (SCRIPT_DIR : string) (config_path : option string)
  : string :=
  match config_path with
  | None => (SCRIPT_DIR ++ "/config.json")%string
  | Some p => p
  end.

(** Decoded JSON that [dict.update] rejects at once: a value that is
    not iterable, or a str with characters. *)
Definition unusable_top_level (config_data : value) : bool :=
  match config_data with
  | VNone | VBool _ | VInt _ => true
  | VStr s => truthy_str s
  | VList _ | VDict _ => false
  end.

(** The response of the server when no summary could be made. *)
Definition soft_failure (query : string) : value :=
  VDict [("query"%string, VStr query); ("summary"%string, VNone);
         ("message"%string,
          VStr "Could not generate a summary for this query.")].

End Observe2.

Import Observe2.

Module Scenarios2.

Import Scenarios Config.
Local Open Scope string_scope.

(** Two hits, the second one without an [href]. *)
Definition env_hit_without_href : environment :=
  site (Ret [hit_of "a"; [("title", "t")]]) (fun _ => false) inner_text
       one_sentence None (Raise ClientConnectionError).

(** The provider lists one URL twice; the page shows its body at the
    first visit of a run and times out at every later one. *)
Definition env_second_fetch_fails : environment :=
  {| ddgs_text := fun _ _ _ => Ret [hit_of "u"; hit_of "u"];
     chrome_start := fun _ => None;
     navigate := fun _ _ _ => None;
     wait_body := fun t _ _ =>
       if (1 <? scrape_calls t)%nat then Some TimeoutException else None;
     page_source := fun _ _ => Ret "<html>u</html>";
     quit_error := fun _ _ => None;
     trafilatura_extract := fun html => Ret (inner_text html);
     lsa_sentences := one_sentence;
     mistral_api_key := None;
     session_post := fun _ _ => Raise ClientConnectionError |}.

(** One page that loads, and a browser whose shutdown raises. *)
Definition env_quit_fails : environment :=
  {| ddgs_text := fun _ _ _ => Ret [hit_of "u"; hit_of "v"];
     chrome_start := fun _ => None;
     navigate := fun _ _ _ => None;
     wait_body := fun _ _ _ => None;
     page_source := fun _ _ => Ret "<html>u</html>";
     quit_error := fun _ _ => Some WebDriverException;
     trafilatura_extract := fun html => Ret (inner_text html);
     lsa_sentences := one_sentence;
     mistral_api_key := None;
     session_post := fun _ _ => Raise ClientConnectionError |}.

(** One page that loads, and an extractor that raises on it. *)
Definition env_extractor_raises : environment :=
  {| ddgs_text := fun _ _ _ => Ret [hit_of "u"];
     chrome_start := fun _ => None;
     navigate := fun _ _ _ => None;
     wait_body := fun _ _ _ => None;
     page_source := fun _ _ => Ret "<html>u</html>";
     quit_error := fun _ _ => None;
     trafilatura_extract := fun _ => Raise TypeError;
     lsa_sentences := one_sentence;
     mistral_api_key := Some "key";
     session_post := fun _ _ => Raise ClientConnectionError |}.

(** A file system with one configuration file. *)
Definition one_file (path : string) (content : result value)
  : string -> result value :=
  fun p => if (p =? path)%string then content
           else Raise (OtherException "FileNotFoundError").

Definition partial_config : value :=
  VDict [("summary_sentences_count", VInt 7); ("theme", VStr "dark")].

End Scenarios2.
(* ===================================================================== *)
(** ** Python strings                                                     *)
(* ===================================================================== *)

Module PyFacts.

Lemma truthy_str_false (s : string) :
  truthy_str s = false <-> s = EmptyString.
Proof.
  unfold truthy_str. destruct s; simpl; split; intro H;
    try reflexivity; discriminate.
Qed.

Lemma truthy_str_true (s : string) :
  truthy_str s = true <-> s <> EmptyString.
Proof.
  unfold truthy_str. destruct s; simpl; split; intro H;
    try reflexivity; try discriminate. now elim H.
Qed.

Lemma lstrip_all_space (s : string) :
  all_space s = true -> lstrip s = EmptyString.
Proof.
  induction s as [|c s IH]; simpl; intro H; [reflexivity|].
  apply andb_true_iff in H as [Hc Hs]. rewrite Hc. auto.
Qed.

Lemma rstrip_empty_all_space (s : string) :
  rstrip s = EmptyString -> all_space s = true.
Proof.
  induction s as [|c s IH]; simpl; intro H; [reflexivity|].
  destruct (rstrip s) eqn:E; [|discriminate].
  destruct (isspace c); [|discriminate]. simpl. auto.
Qed.

Lemma lstrip_head (s : string) :
  match lstrip s with
  | EmptyString => all_space s = true
  | String c _ => isspace c = false
  end.
Proof.
  induction s as [|c s IH]; simpl; [reflexivity|].
  destruct (isspace c) eqn:E; simpl; [|exact E].
  destruct (lstrip s); simpl; auto.
Qed.

(** [strip] leaves nothing exactly when the string is all whitespace. *)
Lemma strip_empty_iff (s : string) :
  strip s = EmptyString <-> all_space s = true.
Proof.
  unfold strip. split; intro H.
  - pose proof (lstrip_head s) as L.
    destruct (lstrip s) as [|c r] eqn:E; [exact L|].
    apply rstrip_empty_all_space in H. simpl in H.
    rewrite L in H. discriminate.
  - now rewrite (lstrip_all_space _ H).
Qed.

Lemma truthy_strip (s : string) :
  truthy_str (strip s) = negb (all_space s).
Proof.
  destruct (all_space s) eqn:E.
  - apply strip_empty_iff in E. now rewrite E.
  - apply truthy_str_true. intro H. apply strip_empty_iff in H. congruence.
Qed.

Lemma all_space_empty_or (s : string) :
  truthy_str s && truthy_str (strip s) = negb (all_space s).
Proof.
  rewrite truthy_strip. destruct s; reflexivity.
Qed.

End PyFacts.

(* ===================================================================== *)
(** ** search_module.py: no exception escapes                             *)
(* ===================================================================== *)

Module SearchFacts.

Import SearchModule.

(** The closed form of [search_urls]. *)
Lemma search_urls_run (env : environment) (query : string)
    (num_results : Z) (t : trace) :
  let t1 := t ++ [EvSearch query num_results] in
  search_urls env query num_results t =
    (Ret match ddgs_text env t1 query num_results with
         | Raise _ => []
         | Ret results =>
             match hrefs results with
             | Raise _ => []
             | Ret urls => urls
             end
         end,
     t1).
Proof.
  unfold search_urls, bind, try_except, emit, ask, of_result, ret. simpl.
  destruct (ddgs_text env _ query num_results) as [results|e];
    [|reflexivity].
  destruct results as [|r rest]; [reflexivity|].
  destruct (hrefs (r :: rest)); reflexivity.
Qed.

(** When every hit carries an [href], [hrefs] is a plain map. *)
Lemma hrefs_length (results : list hit) (urls : list string) :
  hrefs results = Ret urls -> List.length urls = List.length results.
Proof.
  revert urls. induction results as [|r rest IH]; simpl; intros urls H.
  - now inversion H.
  - destruct (dict_get "href" r); [|discriminate].
    destruct (hrefs rest) as [hs|]; [|discriminate].
    inversion H; subst. simpl. f_equal. now apply IH.
Qed.

(** C6. [search_urls] always returns a list and never raises: the list
    is empty when the provider raises, when it finds nothing, and when
    a hit lacks its [href]; otherwise it is the hrefs of the hits, in
    the provider's order.  The call leaves one search event. *)
Theorem search_urls_never_raises (env : environment) (query : string)
    (num_results : Z) (t : trace) :
  let t1 := t ++ [EvSearch query num_results] in
  exists urls : list string,
    search_urls env query num_results t = (Ret urls, t1) /\
    urls = match ddgs_text env t1 query num_results with
           | Raise _ => []
           | Ret results =>
               match hrefs results with
               | Raise _ => []
               | Ret hs => hs
               end
           end.
Proof.
  intro t1. eexists. split; [apply search_urls_run|reflexivity].
Qed.

End SearchFacts.

(* ===================================================================== *)
(** ** scraper.py: the browser session                                    *)
(* ===================================================================== *)

Module ScraperFacts.

Import Scraper.

Lemma open_drivers_app (t evs : trace) :
  open_drivers (t ++ evs) = fold_left driver_step evs (open_drivers t).
Proof. unfold open_drivers. apply fold_left_app. Qed.

(** The closed form of [scrape_website]: its outcome and its trace, by
    the step at which the browser fails. *)
Lemma scrape_website_run (env : environment) (url : string)
    (wait_timeout : Z) (t : trace) :
  let t1 := t ++ [EvScrape url] in
  let d := List.length t1 in
  let t2 := t1 ++ [EvDriverStart d] in
  scrape_website env url wait_timeout t =
    match chrome_start env t1 with
    | Some _ => (Ret None, t1)
    | None =>
        match quit_error env t2 d with
        | Some e => (Raise e, t2)
        | None =>
            (Ret match navigate env t2 d url,
                       wait_body env t2 d wait_timeout,
                       page_source env t2 d with
                 | None, None, Ret src => Some src
                 | _, _, _ => None
                 end,
             t2 ++ [EvDriverQuit d])
        end
    end.
Proof.
  intros t1 d t2.
  unfold scrape_website, scrape_body, scrape_try, scrape_finally,
    scrape_except, try_finally, try_except, bind, world, get_frame,
    set_driver, set_html_content, webdriver_Chrome, driver_get,
    wait_until_body, driver_page_source, driver_quit, attempt, ask, emit,
    ret. simpl.
  fold t1. destruct (chrome_start env t1) as [e|] eqn:Hstart; simpl.
  - destruct e; reflexivity.
  - fold d. fold t2.
    destruct (navigate env t2 d url) as [e|]; simpl.
    { destruct e; simpl; destruct (quit_error env t2 d); reflexivity. }
    destruct (wait_body env t2 d wait_timeout) as [e|]; simpl.
    { destruct e; simpl; destruct (quit_error env t2 d); reflexivity. }
    destruct (page_source env t2 d) as [src|e]; simpl.
    + destruct (quit_error env t2 d); reflexivity.
    + destruct e; simpl; destruct (quit_error env t2 d); reflexivity.
Qed.

(** The events of one call: the entry, then nothing, or one session
    opened and closed, or, when the call raises, one session opened
    and left open. *)
Lemma scrape_website_outcome (env : environment) (url : string)
    (wait_timeout : Z) (t : trace) :
  exists (r : result (option string)) (evs : trace),
    scrape_website env url wait_timeout t = (r, t ++ EvScrape url :: evs) /\
    match r with
    | Ret _ =>
        (evs = [] \/ exists d, evs = [EvDriverStart d; EvDriverQuit d]) /\
        open_drivers (t ++ EvScrape url :: evs) = open_drivers t
    | Raise _ =>
        exists d, evs = [EvDriverStart d] /\
                  open_drivers (t ++ EvScrape url :: evs) = d :: open_drivers t
    end.
Proof.
  rewrite scrape_website_run. cbv zeta.
  destruct (chrome_start env (t ++ [EvScrape url])).
  - exists (Ret None), []. split; [reflexivity|]. split; [now left|].
    now rewrite open_drivers_app.
  - set (d := List.length (t ++ [EvScrape url])).
    destruct (quit_error env _ d) as [e|].
    + exists (Raise e), [EvDriverStart d].
      rewrite <- app_assoc. split; [reflexivity|]. exists d.
      split; [reflexivity|]. now rewrite open_drivers_app.
    + eexists (Ret _), [EvDriverStart d; EvDriverQuit d].
      rewrite <- !app_assoc. split; [reflexivity|]. split; [eauto|].
      rewrite open_drivers_app. simpl. now rewrite Nat.eqb_refl.
Qed.

(** The events of a call that returned. *)
Lemma scrape_website_events (env : environment) (url : string)
    (wait_timeout : Z) (t t' : trace) (r : option string) :
  scrape_website env url wait_timeout t = (Ret r, t') ->
  exists evs : trace,
    t' = t ++ EvScrape url :: evs
    /\ (evs = [] \/ exists d, evs = [EvDriverStart d; EvDriverQuit d])
    /\ open_drivers t' = open_drivers t.
Proof.
  intro Hrun.
  destruct (scrape_website_outcome env url wait_timeout t)
    as (r0 & evs & Hr0 & Hcase).
  rewrite Hrun in Hr0. injection Hr0 as <- ->.
  exists evs. destruct Hcase as [Hevs Hopen]. auto.
Qed.

(** C8. With a browser whose shutdown raises, [scrape_website] does not
    return [None]: the page is loaded, [driver.quit()] raises in the
    [finally] block, and the exception reaches the caller; no quit is
    recorded and the session stays open. *)
Theorem scrape_website_quit_failure_escapes :
  scrape_website Scenarios2.env_quit_fails "u" DEFAULT_WAIT_TIMEOUT []
    = (Raise WebDriverException, [EvScrape "u"; EvDriverStart 1])
  /\ open_drivers [EvScrape "u"; EvDriverStart 1] = [1].
Proof. split; reflexivity. Qed.

End ScraperFacts.

(* ===================================================================== *)
(** ** Dicts filled by successive assignments                             *)
(* ===================================================================== *)

Module DictFacts.

Section Keys.
Context {V : Type}.

Lemma keys_dict_set (k : string) (v : V) (d : dict V) :
  keys (dict_set k v d) = add_key k (keys d).
Proof.
  unfold add_key, keys. induction d as [|[k' v'] d IH]; simpl.
  - reflexivity.
  - destruct (k =? k')%string eqn:E; simpl; [reflexivity|].
    rewrite IH. destruct (existsb (String.eqb k) (map fst d)); reflexivity.
Qed.

Lemma existsb_eqb_In (k : string) (ks : list string) :
  existsb (String.eqb k) ks = true <-> In k ks.
Proof.
  rewrite existsb_exists. split.
  - intros (x & Hin & Heq). apply String.eqb_eq in Heq. now subst.
  - intro H. exists k. split; [exact H|apply String.eqb_refl].
Qed.

Lemma dict_set_fresh (k : string) (v : V) (d : dict V) :
  ~ In k (keys d) -> dict_set k v d = d ++ [(k, v)].
Proof.
  unfold keys. induction d as [|[k' v'] d IH]; simpl; intro H.
  - reflexivity.
  - destruct (k =? k')%string eqn:E.
    + apply String.eqb_eq in E. subst. elim H. now left.
    + f_equal. apply IH. intro Hin. apply H. now right.
Qed.

End Keys.

Lemma length_filter_le {A : Type} (f : A -> bool) (l : list A) :
  List.length (filter f l) <= List.length l.
Proof.
  induction l as [|x l IH]; simpl; [lia|]. destruct (f x); simpl; lia.
Qed.

Lemma filter_length_all {A : Type} (f : A -> bool) (l : list A) :
  List.length (filter f l) = List.length l -> filter f l = l.
Proof.
  induction l as [|x l IH]; simpl; intro H; [reflexivity|].
  destruct (f x); simpl in H.
  - f_equal. apply IH. lia.
  - pose proof (length_filter_le f l). lia.
Qed.

Lemma filter_filter {A : Type} (f g : A -> bool) (l : list A) :
  filter f (filter g l) = filter (fun x => g x && f x) l.
Proof.
  induction l as [|x l IH]; simpl; [reflexivity|].
  destruct (g x); simpl; [destruct (f x)|]; now rewrite IH.
Qed.

(** The keys after a sequence of assignments, from any starting dict. *)
Lemma fold_add_key (urls ks : list string) :
  fold_left (fun acc u => add_key u acc) urls ks
  = ks ++ filter (outside ks) (first_occurrences urls).
Proof.
  revert ks. induction urls as [|x urls IH]; intro ks; simpl.
  - now rewrite app_nil_r.
  - rewrite IH. unfold add_key, outside at 2. fold (differs x).
    destruct (existsb (String.eqb x) ks) eqn:E; simpl.
    + f_equal. rewrite filter_filter. apply filter_ext. intro y.
      unfold differs, outside.
      destruct (y =? x)%string eqn:Eyx; simpl; [|reflexivity].
      apply String.eqb_eq in Eyx. subst. now rewrite E.
    + rewrite <- app_assoc. simpl. do 2 f_equal.
      rewrite filter_filter. apply filter_ext. intro y.
      unfold differs, outside. rewrite existsb_app. simpl.
      rewrite orb_false_r, negb_orb.
      rewrite (String.eqb_sym y x). apply andb_comm.
Qed.

Lemma fold_add_key_nil (urls : list string) :
  fold_left (fun acc u => add_key u acc) urls [] = first_occurrences urls.
Proof.
  rewrite fold_add_key. simpl. unfold outside. simpl.
  induction (first_occurrences urls) as [|y l IH]; simpl; congruence.
Qed.

Lemma first_occurrences_incl (l : list string) (x : string) :
  In x (first_occurrences l) <-> In x l.
Proof.
  induction l as [|y l IH]; simpl; [tauto|].
  rewrite filter_In, IH. split.
  - intros [H|[H _]]; auto.
  - intros [H|H]; [now left|].
    destruct (x =? y)%string eqn:E.
    + apply String.eqb_eq in E. now left.
    + right. split; [exact H|reflexivity].
Qed.

Lemma first_occurrences_NoDup (l : list string) :
  NoDup (first_occurrences l).
Proof.
  induction l as [|y l IH]; simpl; constructor.
  - rewrite filter_In. intros [_ H]. now rewrite String.eqb_refl in H.
  - now apply NoDup_filter.
Qed.

Lemma first_occurrences_id (l : list string) :
  NoDup l -> first_occurrences l = l.
Proof.
  induction 1 as [|x l Hx Hnd IH]; simpl; [reflexivity|].
  rewrite IH. f_equal. apply filter_length_all.
  clear IH Hnd. induction l as [|y l IH]; simpl; [reflexivity|].
  destruct (y =? x)%string eqn:E; simpl.
  - apply String.eqb_eq in E. subst. elim Hx. now left.
  - f_equal. apply IH. intro H. apply Hx. now right.
Qed.

Lemma first_occurrences_length (l : list string) :
  List.length (first_occurrences l) <= List.length l.
Proof.
  induction l as [|x l IH]; simpl; [lia|].
  pose proof (length_filter_le (differs x) (first_occurrences l)).
  unfold differs in H. lia.
Qed.

(** No entry is lost exactly when the list has no repetition. *)
Lemma first_occurrences_length_NoDup (l : list string) :
  List.length (first_occurrences l) = List.length l <-> NoDup l.
Proof.
  split; [|intro H; now rewrite first_occurrences_id].
  induction l as [|x l IH]; simpl; intro H; constructor.
  - pose proof (length_filter_le (differs x) (first_occurrences l)) as L1.
    pose proof (first_occurrences_length l) as L2. unfold differs in L1.
    assert (E : filter (fun y => negb (y =? x)%string) (first_occurrences l)
                = first_occurrences l)
      by (apply filter_length_all; lia).
    intro Hin. apply first_occurrences_incl in Hin. rewrite <- E in Hin.
    apply filter_In in Hin as [_ Hin]. now rewrite String.eqb_refl in Hin.
  - apply IH.
    pose proof (length_filter_le (differs x) (first_occurrences l)) as L1.
    pose proof (first_occurrences_length l) as L2. unfold differs in L1. lia.
Qed.

(** Assignments under distinct fresh keys append their entries. *)
Lemma fold_dict_set_fresh {A V : Type} (f : A -> V)
    (items : list (string * A)) (d : dict V) :
  NoDup (map fst items) ->
  (forall k, In k (map fst items) -> ~ In k (keys d)) ->
  fold_left (fun acc p => dict_set (fst p) (f (snd p)) acc) items d
  = d ++ map (fun p => (fst p, f (snd p))) items.
Proof.
  revert d. induction items as [|[k a] items IH]; simpl; intros d Hnd Hfresh.
  - now rewrite app_nil_r.
  - inversion Hnd as [|? ? Hk Hnd']; subst.
    rewrite dict_set_fresh by (apply Hfresh; now left).
    rewrite IH; [now rewrite <- app_assoc|exact Hnd'|].
    intros k' Hin. unfold keys. rewrite map_app, in_app_iff. simpl.
    intros [H|[H|[]]].
    + apply (Hfresh k'); [now right|exact H].
    + subst. contradiction.
Qed.

End DictFacts.

(* ===================================================================== *)
(** ** main_processor.py: the stages of the pipeline                      *)
(* ===================================================================== *)

Module StageFacts.

Import SearchModule Scraper MainProcessor.
Import PyFacts SearchFacts ScraperFacts DictFacts.

(** *** Counting events *)

Lemma scrape_calls_app (t evs : trace) :
  scrape_calls (t ++ evs) = scrape_calls t + scrape_calls evs.
Proof. unfold scrape_calls. now rewrite filter_app, length_app. Qed.

Lemma extract_calls_app (t evs : trace) :
  extract_calls (t ++ evs) = extract_calls t + extract_calls evs.
Proof. unfold extract_calls. now rewrite filter_app, length_app. Qed.

Lemma post_calls_app (t evs : trace) :
  post_calls (t ++ evs) = post_calls t ++ post_calls evs.
Proof. unfold post_calls. apply filter_app. Qed.

Lemma summarized_corpora_app (t evs : trace) :
  summarized_corpora (t ++ evs)
  = summarized_corpora t ++ summarized_corpora evs.
Proof. unfold summarized_corpora. apply flat_map_app. Qed.

Lemma quiet_app (e1 e2 : trace) (s1 s2 x1 x2 : nat) :
  quiet e1 s1 x1 -> quiet e2 s2 x2 -> quiet (e1 ++ e2) (s1 + s2) (x1 + x2).
Proof.
  intros [A1 B1 C1 D1] [A2 B2 C2 D2]. split.
  - now rewrite scrape_calls_app, A1, A2.
  - now rewrite extract_calls_app, B1, B2.
  - now rewrite post_calls_app, C1, C2.
  - now rewrite summarized_corpora_app, D1, D2.
Qed.

Lemma quiet_nil : quiet [] 0 0.
Proof. split; reflexivity. Qed.

(** *** The primary summarizer *)

(** The closed form of [summarize_text]: it never raises and leaves the
    trace alone. *)
Lemma summarize_text_run (env : environment) (text : value)
    (sentences_count : Z) (t : trace) :
  summarize_text env text sentences_count t =
    (Ret match text with
         | VStr s =>
             if all_space s then EmptyString
             else match lsa_sentences env s sentences_count with
                  | Ret sentences => join " " sentences
                  | Raise _ => EmptyString
                  end
         | _ => EmptyString
         end, t).
Proof.
  unfold summarize_text. destruct text as [| | |s| |]; try reflexivity.
  pose proof (strip_empty_iff s) as Hs.
  destruct (all_space s) eqn:E.
  - assert (H : strip s = EmptyString) by now apply Hs.
    rewrite H. simpl. now rewrite orb_true_r.
  - assert (Hst : strip s <> EmptyString)
      by (intro H; apply Hs in H; discriminate).
    destruct s as [|c s']; [discriminate|].
    destruct (strip (String c s')) as [|c' r]; [now elim Hst|].
    cbn [truthy String.eqb negb orb String.length Nat.eqb].
    unfold try_except, bind, of_result, ret.
    destruct (lsa_sentences env _ sentences_count); reflexivity.
Qed.

(** *** The fetch loop *)

Lemma quiet_silent (evs : trace) (a b : nat) : quiet evs a b -> silent evs.
Proof. intros [_ _ Hp Hc]. now split. Qed.

Lemma silent_app (e1 e2 : trace) : silent e1 -> silent e2 -> silent (e1 ++ e2).
Proof.
  intros [P1 C1] [P2 C2]. split.
  - now rewrite post_calls_app, P1, P2.
  - now rewrite summarized_corpora_app, C1, C2.
Qed.

(** The outcome of the fetch loop.  When it returns, every entry of the
    list was fetched and every session was closed; it raises only when
    a [driver.quit()] raised, and that session is left open. *)
Lemma fetch_loop_outcome (env : environment) (urls : list string)
    (scraped_data : dict (option string)) (t : trace) :
  exists (r : result (dict (option string))) (evs : trace),
    fetch_loop env urls scraped_data t = (r, t ++ evs) /\
    silent evs /\ extract_calls evs = 0 /\
    match r with
    | Ret scraped_data' =>
        keys scraped_data'
          = fold_left (fun acc u => add_key u acc) urls (keys scraped_data) /\
        quiet evs (List.length urls) 0 /\
        open_drivers (t ++ evs) = open_drivers t
    | Raise _ =>
        exists d, open_drivers (t ++ evs) = d :: open_drivers t
    end.
Proof.
  revert scraped_data t.
  induction urls as [|url urls IH]; intros scraped_data t; simpl.
  - exists (Ret scraped_data), []. rewrite app_nil_r.
    repeat split; reflexivity.
  - destruct (scrape_website_outcome env url DEFAULT_WAIT_TIMEOUT t)
      as (r & evs & Hrun & Hcase).
    unfold bind. rewrite Hrun. destruct r as [html|e].
    + destruct Hcase as [Hevs Hopen].
      assert (Hq : quiet (EvScrape url :: evs) 1 0)
        by (destruct Hevs as [->|[d ->]]; split; reflexivity).
      destruct (IH (dict_set url html scraped_data)
                   (t ++ EvScrape url :: evs))
        as (r' & evs' & Hloop & Hsil & Hext & Hcase').
      exists r', ((EvScrape url :: evs) ++ evs').
      rewrite Hloop, app_assoc. split; [reflexivity|].
      split; [apply silent_app; [exact (quiet_silent Hq)|exact Hsil]|].
      split; [now rewrite extract_calls_app, (quiet_extracts Hq), Hext|].
      destruct r' as [sd'|e'].
      * destruct Hcase' as (Hkeys & Hq' & Hopen').
        split; [now rewrite Hkeys, keys_dict_set|].
        split; [exact (quiet_app Hq Hq')|now rewrite Hopen', Hopen].
      * destruct Hcase' as (d & Hopen'). exists d. now rewrite Hopen', Hopen.
    + destruct Hcase as (d & -> & Hopen).
      exists (Raise e), [EvScrape url; EvDriverStart d].
      split; [reflexivity|]. split; [split; reflexivity|].
      split; [reflexivity|]. eauto.
Qed.

(** What is known when the fetch loop returned. *)
Lemma fetch_loop_run (env : environment) (urls : list string)
    (scraped_data scraped_data' : dict (option string)) (t t' : trace) :
  fetch_loop env urls scraped_data t = (Ret scraped_data', t') ->
  exists evs : trace,
    t' = t ++ evs /\
    keys scraped_data'
      = fold_left (fun acc u => add_key u acc) urls (keys scraped_data) /\
    quiet evs (List.length urls) 0 /\
    open_drivers t' = open_drivers t.
Proof.
  intro Hrun.
  destruct (fetch_loop_outcome env urls scraped_data t)
    as (r & evs & Hr & _ & _ & Hcase).
  rewrite Hrun in Hr. injection Hr as <- ->.
  exists evs. destruct Hcase as (Hkeys & Hq & Hopen). auto.
Qed.

(** *** The extraction loop *)

Lemma extract_events_quiet {A : Type} (f : A -> string) (l : list A) :
  quiet (map (fun p => EvExtract (f p)) l) 0 (List.length l).
Proof.
  induction l as [|x l IH]; [split; reflexivity|].
  destruct IH as [H1 H2 H3 H4]. split.
  - exact H1.
  - simpl. unfold extract_calls in *. simpl. now rewrite H2.
  - exact H3.
  - exact H4.
Qed.

Lemma extract_events_open {A : Type} (f : A -> string) (l : list A)
    (t : trace) :
  open_drivers (t ++ map (fun p => EvExtract (f p)) l) = open_drivers t.
Proof.
  rewrite open_drivers_app.
  induction l as [|x l IH]; [reflexivity|exact IH].
Qed.

(** The outcome of the extraction loop: the extractor is called on the
    entries that hold markup, in order, up to the first call that
    raises; when none does, every entry gets its outcome. *)
Lemma extract_loop_outcome (env : environment)
    (items : list (string * option string))
    (extracted_texts : dict (option string)) (t : trace) :
  exists (r : result (dict (option string)))
         (called : list (string * option string)),
    extract_loop env items extracted_texts t
      = (r, t ++ map (fun p => EvExtract (fst p)) called) /\
    match r with
    | Ret extracted_texts' =>
        extracted_texts'
        = fold_left
            (fun acc p => dict_set (fst p) (extraction_outcome env (snd p)) acc)
            items extracted_texts /\
        called = filter has_markup items
    | Raise _ => True
    end.
Proof.
  revert extracted_texts t.
  induction items as [|[url html_content] items IH];
    intros extracted_texts t.
  - exists (Ret extracted_texts), []. simpl. rewrite app_nil_r. auto.
  - cbn [extract_loop fold_left fst snd filter].
    unfold has_markup at 1. cbn [snd truthy_opt].
    destruct html_content as [html|]; cbn [extraction_outcome truthy_opt];
      [|apply IH].
    destruct (truthy_str html); [|apply IH].
    unfold bind, emit, of_result.
    destruct (trafilatura_extract env html) as [extracted_text|e].
    + destruct (truthy_opt extracted_text);
        [destruct (IH (dict_set url extracted_text extracted_texts)
                      (t ++ [EvExtract url]))
           as (r & called & Hrun & Hcase)
        |destruct (IH (dict_set url None extracted_texts)
                      (t ++ [EvExtract url]))
           as (r & called & Hrun & Hcase)];
        (exists r, ((url, Some html) :: called); rewrite Hrun;
         cbn [map fst]; rewrite <- app_assoc; split; [reflexivity|];
         destruct r; [|exact I]; destruct Hcase as [-> ->]; auto).
    + exists (Raise e), [(url, Some html)]. split; [reflexivity|exact I].
Qed.

(** What is known when the extraction loop returned. *)
Lemma extract_loop_run (env : environment)
    (items : list (string * option string))
    (extracted_texts extracted_texts' : dict (option string))
    (t t' : trace) :
  extract_loop env items extracted_texts t = (Ret extracted_texts', t') ->
  extracted_texts'
  = fold_left
      (fun acc p => dict_set (fst p) (extraction_outcome env (snd p)) acc)
      items extracted_texts /\
  t' = t ++ map (fun p => EvExtract (fst p)) (filter has_markup items).
Proof.
  intro Hrun.
  destruct (extract_loop_outcome env items extracted_texts t)
    as (r & called & Hr & Hcase).
  rewrite Hrun in Hr. injection Hr as <- ->.
  destruct Hcase as [-> ->]. auto.
Qed.

End StageFacts.

(* ===================================================================== *)
(** ** main_processor.py: the refinement call                             *)
(* ===================================================================== *)

Module RefinementFacts.

Import MainProcessor PyFacts.

Lemma mistral_except_run (first_summary : string) (e : exn) (t : trace) :
  mistral_except first_summary e t = (Ret first_summary, t).
Proof. destruct e; reflexivity. Qed.

(** Lines 231-236 on a decoded reply [j]: the stripped completion when
    [j] has the documented shape, the first summary or an exception
    otherwise. *)
Lemma read_reply (j : value) (first_summary : string) (t : trace) :
  exists r : result string,
    (choices <- of_result (py_get j "choices") ;;
     if truthy choices then
       c <- of_result (getitem_str j "choices") ;;
       c0 <- of_result (getitem_0 c) ;;
       message <- of_result (getitem_str c0 "message") ;;
       content <- of_result (getitem_str message "content") ;;
       of_result (py_strip content)
     else ret first_summary) t = (r, t) /\
    match completion_of j with
    | Some s => r = Ret (strip s)
    | None => r = Ret first_summary \/ exists e, r = Raise e
    end.
Proof.
  unfold bind, of_result, ret, completion_of, py_get, getitem_str.
  destruct j as [| | | | |d]; simpl; try (eexists; split; eauto; fail).
  destruct (dict_get "choices" d) as [choices|] eqn:Hc; simpl;
    [|eexists; split; eauto].
  destruct choices as [|b|z|s|l|d0]; simpl;
    try (eexists; split; eauto; fail).
  - destruct b; simpl; eexists; split; eauto.
  - destruct (z =? 0)%Z; simpl; eexists; split; eauto.
  - destruct s; simpl; eexists; split; eauto.
  - destruct l as [|c0 l]; simpl; [eexists; split; eauto|].
    destruct c0 as [| | | | |m0]; simpl;
      try (eexists; split; eauto; fail).
    destruct (dict_get "message" m0) as [message|]; simpl;
      [|eexists; split; eauto].
    destruct message as [| | | | |m]; simpl;
      try (eexists; split; eauto; fail).
    destruct (dict_get "content" m) as [content|]; simpl;
      [|eexists; split; eauto].
    destruct content; simpl; eexists; split; eauto.
  - destruct d0; simpl; eexists; split; eauto.
Qed.

(** The closed form of the body of the [try]. *)
Lemma mistral_try_run (env : environment)
    (query first_summary model : string) (max_tokens : Z) (t : trace) :
  let req := mistral_request env query first_summary model max_tokens in
  let t1 := t ++ [EvPost req] in
  exists r : result string,
    mistral_try env query first_summary model max_tokens t = (r, t1) /\
    match session_post env t1 req with
    | Raise e => r = Raise e
    | Ret resp =>
        if (400 <=? status resp)%Z
        then r = Raise (ClientResponseError (status resp))
        else match json_body resp with
             | Raise e => r = Raise e
             | Ret j =>
                 match completion_of j with
                 | Some s => r = Ret (strip s)
                 | None => r = Ret first_summary \/ exists e, r = Raise e
                 end
             end
    end.
Proof.
  intros req t1. unfold mistral_try. fold req.
  unfold bind at 1. unfold emit at 1. fold t1.
  unfold bind at 1. unfold ask at 1.
  destruct (session_post env t1 req) as [resp|e]; [|eauto].
  unfold bind at 1. unfold raise_for_status.
  destruct (400 <=? status resp)%Z; [unfold raise; eauto|].
  unfold ret at 1. unfold bind at 1. unfold of_result at 1.
  destruct (json_body resp) as [j|e]; [|eauto].
  apply read_reply.
Qed.

(** Lines 189-256 always leave a string in [final_summary]; the trace
    grows by at most the one request. *)
Lemma second_summarization_total (env : environment)
    (query first_summary model : string) (max_tokens : Z) (t : trace) :
  let req := mistral_request env query first_summary model max_tokens in
  exists (final_summary : string) (t' : trace),
    second_summarization env query first_summary model max_tokens t
      = (Ret final_summary, t') /\
    (t' = t \/ t' = t ++ [EvPost req]).
Proof.
  intro req. unfold second_summarization.
  destruct (truthy_str first_summary && truthy_opt (mistral_api_key env)).
  - destruct (mistral_try_run env query first_summary model max_tokens t)
      as (r & Hrun & _).
    unfold try_except. rewrite Hrun. destruct r as [s|e].
    + eauto.
    + rewrite mistral_except_run. eauto.
  - destruct (negb (truthy_str first_summary)); unfold ret; eauto.
Qed.

(** When refinement is skipped or fails, [final_summary] is the first
    summary. *)
Lemma second_summarization_fallback (env : environment)
    (query first_summary model : string) (max_tokens : Z) (t : trace) :
  let req := mistral_request env query first_summary model max_tokens in
  refinement_unavailable env (t ++ [EvPost req]) req ->
  exists t' : trace,
    second_summarization env query first_summary model max_tokens t
      = (Ret first_summary, t') /\
    (t' = t \/ t' = t ++ [EvPost req]).
Proof.
  intros req H. unfold second_summarization.
  destruct (truthy_str first_summary) eqn:Hfirst; simpl.
  2:{ apply truthy_str_false in Hfirst. subst. unfold ret. eauto. }
  destruct (truthy_opt (mistral_api_key env)) eqn:Hkey;
    [|unfold ret; eauto].
  destruct (mistral_try_run env query first_summary model max_tokens t)
    as (r & Hrun & Hr).
  fold req in Hr. unfold try_except. rewrite Hrun.
  assert (Hcases : r = Ret first_summary \/ exists e, r = Raise e).
  { destruct H as [Habs|e He|resp He Hst|resp e He Hb|resp j He Hb Hc].
    - congruence.
    - rewrite He in Hr. eauto.
    - rewrite He in Hr. apply Z.leb_le in Hst. rewrite Hst in Hr. eauto.
    - rewrite He in Hr. destruct (400 <=? status resp)%Z; [eauto|].
      rewrite Hb in Hr. eauto.
    - rewrite He in Hr. destruct (400 <=? status resp)%Z; [eauto|].
      rewrite Hb, Hc in Hr. exact Hr. }
  destruct Hcases as [->|[e ->]].
  - eauto.
  - rewrite mistral_except_run. eauto.
Qed.

(** A reply of the documented shape replaces the first summary by the
    stripped completion. *)
Lemma second_summarization_refined (env : environment)
    (query first_summary model : string) (max_tokens : Z) (t : trace)
    (resp : response) (j : value) (s : string) :
  let req := mistral_request env query first_summary model max_tokens in
  first_summary <> EmptyString ->
  truthy_opt (mistral_api_key env) = true ->
  session_post env (t ++ [EvPost req]) req = Ret resp ->
  (status resp < 400)%Z ->
  json_body resp = Ret j ->
  completion_of j = Some s ->
  second_summarization env query first_summary model max_tokens t
    = (Ret (strip s), t ++ [EvPost req]).
Proof.
  intros req Hfirst Hkey Hpost Hst Hbody Hc.
  unfold second_summarization.
  apply truthy_str_true in Hfirst. rewrite Hfirst, Hkey. simpl.
  destruct (mistral_try_run env query first_summary model max_tokens t)
    as (r & Hrun & Hr).
  fold req in Hr. rewrite Hpost in Hr.
  apply Z.leb_gt in Hst. rewrite Hst, Hbody, Hc in Hr. subst r.
  unfold try_except. now rewrite Hrun.
Qed.

End RefinementFacts.

(* ===================================================================== *)
(** ** main_processor.py: the pipeline                                    *)
(* ===================================================================== *)

Module PipelineFacts.

Import SearchModule Scraper MainProcessor.
Import PyFacts SearchFacts ScraperFacts DictFacts StageFacts RefinementFacts.

(** Lines 135-138: without URLs the function returns the empty dict. *)
Lemma process_query_no_urls (env : environment) (query : string)
    (num_results summary_sentences : Z) (model : string) (max_tokens : Z)
    (t t1 : trace) :
  search_urls env query num_results t = (Ret [], t1) ->
  process_query env query num_results summary_sentences model max_tokens t
    = (Ret (VDict []), t1).
Proof.
  intro H. unfold process_query, bind. now rewrite H.
Qed.

(** Lines 177-261 from the program point after the extraction loop. *)
Lemma process_query_from_corpus (env : environment) (query : string)
    (num_results summary_sentences : Z) (model : string) (max_tokens : Z)
    (t : trace) (urls : list string)
    (scraped_data extracted_texts : dict (option string)) (t3 : trace) :
  reaches_corpus env query num_results t urls scraped_data
    extracted_texts t3 ->
  process_query env query num_results summary_sentences model max_tokens t
  = (final_summary <-
       (if negb (truthy_str (combine extracted_texts)) then ret EmptyString
        else
          first_summary <-
            summarize_text env (VStr (combine extracted_texts))
              summary_sentences ;;
          emit (EvFirstSummary (combine extracted_texts) first_summary) ;;;
          second_summarization env query first_summary model max_tokens) ;;
     ret (VStr final_summary)) t3.
Proof.
  intros (t1 & t2 & Hsearch & Hne & Hfetch & Hextract).
  unfold process_query. unfold bind at 1. rewrite Hsearch.
  destruct urls as [|u urls]; [now elim Hne|].
  unfold bind at 1. rewrite Hfetch.
  unfold bind at 1. rewrite Hextract. reflexivity.
Qed.

(** The three ways a run can go: the search gives no URL; the run
    reaches the corpus; or a [driver.quit()] or the extractor raises,
    and the exception ends the run before anything is summarized or
    sent, with at most the one session of the failed quit left open. *)
Lemma process_query_cases (env : environment) (query : string)
    (num_results summary_sentences : Z) (model : string) (max_tokens : Z)
    (t : trace) :
  search_urls env query num_results t
    = (Ret [], t ++ [EvSearch query num_results])
  \/ (exists urls scraped_data extracted_texts t3,
        reaches_corpus env query num_results t urls scraped_data
          extracted_texts t3)
  \/ (exists (e : exn) (evs : trace) (u : string) (urls : list string),
        search_urls env query num_results t
          = (Ret (u :: urls), t ++ [EvSearch query num_results]) /\
        process_query env query num_results summary_sentences model
          max_tokens t = (Raise e, t ++ evs) /\
        silent evs /\
        (open_drivers (t ++ evs) = open_drivers t
         \/ exists d, open_drivers (t ++ evs) = d :: open_drivers t)).
Proof.
  pose proof (search_urls_run env query num_results t) as Hs.
  cbv zeta in Hs.
  set (found := match ddgs_text env _ query num_results with
                | Ret _ => _ | Raise _ => _ end) in Hs.
  destruct found as [|u urls]; [now left|right].
  set (t1 := t ++ [EvSearch query num_results]) in *.
  assert (Ht1 : open_drivers t1 = open_drivers t)
    by (unfold t1; now rewrite open_drivers_app).
  assert (Hsearch : silent [EvSearch query num_results])
    by (split; reflexivity).
  destruct (fetch_loop_outcome env (u :: urls) [] t1)
    as (r & evs & Hf & Hsil & _ & Hcase).
  destruct r as [sd|e].
  - destruct Hcase as (_ & _ & Hopen).
    destruct (extract_loop_outcome env sd [] (t1 ++ evs))
      as (r' & called & He & Hcase').
    destruct r' as [et|e].
    + left. exists (u :: urls), sd, et. eexists. exists t1. eexists.
      split; [exact Hs|]. split; [discriminate|].
      split; [exact Hf|exact He].
    + right. exists e.
      exists (([EvSearch query num_results] ++ evs)
              ++ map (fun p => EvExtract (fst p)) called), u, urls.
      split; [exact Hs|]. split.
      * unfold process_query. unfold bind at 1. rewrite Hs.
        unfold bind at 1. rewrite Hf. unfold bind at 1. rewrite He.
        unfold t1. now rewrite !app_assoc.
      * split.
        -- apply silent_app; [apply silent_app; assumption|].
           exact (quiet_silent (extract_events_quiet fst called)).
        -- left. rewrite <- !app_assoc.
           change (t ++ [EvSearch query num_results] ++ evs ++ ?x)
             with (t ++ ([EvSearch query num_results] ++ evs ++ x)).
           rewrite (app_assoc t [EvSearch query num_results]).
           fold t1. rewrite (app_assoc t1 evs).
           now rewrite extract_events_open, Hopen.
  - right. destruct Hcase as (d & Hopen). exists e.
    exists ([EvSearch query num_results] ++ evs), u, urls.
    split; [exact Hs|]. split.
    + unfold process_query. unfold bind at 1. rewrite Hs.
      unfold bind at 1. rewrite Hf. unfold t1. now rewrite app_assoc.
    + split; [now apply silent_app|].
      right. exists d. rewrite app_assoc. fold t1. now rewrite Hopen, Ht1.
Qed.

(** What is known at the program point after the extraction loop. *)
Lemma reaches_corpus_shape (env : environment) (query : string)
    (num_results : Z) (t : trace) (urls : list string)
    (scraped_data extracted_texts : dict (option string)) (t3 : trace) :
  reaches_corpus env query num_results t urls scraped_data
    extracted_texts t3 ->
  keys scraped_data = first_occurrences urls /\
  extracted_texts
    = map (fun p => (fst p, extraction_outcome env (snd p))) scraped_data /\
  exists (evs : trace) (n : nat),
    t3 = t ++ evs /\ quiet evs (List.length urls) n /\
    n <= List.length scraped_data /\
    open_drivers t3 = open_drivers t.
Proof.
  intros (t1 & t2 & Hsearch & Hne & Hfetch & Hextract).
  rewrite search_urls_run in Hsearch. cbv zeta in Hsearch.
  injection Hsearch as _ Ht1. subst t1.
  destruct (fetch_loop_run _ _ _ _ Hfetch) as (evs & -> & Hkeys & Hq & Ho).
  destruct (extract_loop_run _ _ _ _ Hextract) as [-> ->].
  simpl in Hkeys. rewrite fold_add_key_nil in Hkeys.
  split; [exact Hkeys|]. split.
  - rewrite fold_dict_set_fresh; [reflexivity| |intros k _ []].
    fold (keys scraped_data). rewrite Hkeys.
    apply first_occurrences_NoDup.
  - exists (([EvSearch query num_results] ++ evs)
            ++ map (fun p => EvExtract (fst p))
                   (filter has_markup scraped_data)),
      (List.length (filter has_markup scraped_data)).
    split; [now rewrite !app_assoc|].
    split; [|split; [apply length_filter_le|]].
    + assert (Hsearch : quiet [EvSearch query num_results] 0 0)
        by (split; reflexivity).
      pose proof (quiet_app (quiet_app Hsearch Hq)
                    (extract_events_quiet fst
                       (filter has_markup scraped_data))) as Hall.
      simpl plus in Hall. now rewrite Nat.add_0_r in Hall.
    + rewrite extract_events_open, Ho, open_drivers_app. reflexivity.
Qed.

(** The texts that enter the corpus: line 179 keeps the outcomes that
    are not blank. *)
Lemma kept_texts_nonblank (texts : list (option string)) :
  kept_texts texts = nonblank_texts texts.
Proof.
  unfold nonblank_texts.
  induction texts as [|[s|] texts IH]; simpl; [reflexivity| |exact IH].
  rewrite all_space_empty_or. destruct (all_space s); simpl; now rewrite IH.
Qed.

Lemma nonblank_texts_app (l1 l2 : list (option string)) :
  nonblank_texts (l1 ++ l2) = nonblank_texts l1 ++ nonblank_texts l2.
Proof. unfold nonblank_texts. apply flat_map_app. Qed.

Lemma nonblank_texts_Forall (texts : list (option string)) :
  Forall (fun s => s <> EmptyString /\ all_space s = false)
         (nonblank_texts texts).
Proof.
  unfold nonblank_texts.
  induction texts as [|[s|] texts IH]; simpl; [constructor| |exact IH].
  destruct (all_space s) eqn:E; simpl; [exact IH|].
  constructor; [|exact IH]. split; [|exact E].
  intros ->. discriminate.
Qed.

Lemma nonblank_texts_In (texts : list (option string)) (s : string) :
  In s (nonblank_texts texts) <-> In (Some s) texts /\ all_space s = false.
Proof.
  unfold nonblank_texts. rewrite in_flat_map. split.
  - intros ([x|] & Hin & Hs); [|contradiction].
    destruct (all_space x) eqn:E; [contradiction|].
    destruct Hs as [<-|[]]. auto.
  - intros [Hin Hs]. exists (Some s). split; [exact Hin|].
    rewrite Hs. now left.
Qed.

End PipelineFacts.

(* ===================================================================== *)
(** ** The properties of the pipeline                                     *)
(* ===================================================================== *)

Module Pipeline.

Import SearchModule Scraper MainProcessor Scenarios.
Import PyFacts SearchFacts ScraperFacts DictFacts StageFacts RefinementFacts
       PipelineFacts.

(** What the pipeline returns, when it returns, is the empty dict when
    the search gave no URL and a string otherwise. *)
Lemma process_query_returns (env : environment) (query : string)
    (num_results summary_sentences : Z) (model : string) (max_tokens : Z)
    (t t' : trace) (v : value) :
  process_query env query num_results summary_sentences model max_tokens t
    = (Ret v, t') ->
  v = VDict [] \/ exists s, v = VStr s.
Proof.
  intro Hret.
  destruct (process_query_cases env query num_results summary_sentences
              model max_tokens t)
    as [Hnone|[(urls & sd & et & t3 & Hrun)|(e & evs & _ & _ & _ & Hq & _)]].
  - rewrite (@process_query_no_urls env query num_results summary_sentences
               model max_tokens t _ Hnone) in Hret.
    injection Hret as <- _. now left.
  - rewrite (process_query_from_corpus summary_sentences model max_tokens Hrun)
      in Hret.
    right. revert Hret.
    destruct (truthy_str (combine et)); cbn [negb].
    + unfold bind at 1. unfold bind at 1. rewrite summarize_text_run.
      unfold bind at 1. unfold emit.
      match goal with
      | |- context [second_summarization ?e ?q ?f ?m ?k ?tr] =>
          destruct (second_summarization_total e q f m k tr)
            as (final & t'' & Hs & _)
      end.
      rewrite Hs. unfold ret. intro Hret. injection Hret as <- _. eauto.
    + unfold bind, ret. intro Hret. injection Hret as <- _. eauto.
  - rewrite Hq in Hret. discriminate.
Qed.

(** An empty first summary is final and nothing is sent. *)
Lemma empty_first_summary_skips_refinement (env : environment)
    (query model : string) (max_tokens : Z) (t : trace) :
  second_summarization env query EmptyString model max_tokens t
    = (Ret EmptyString, t).
Proof. reflexivity. Qed.

(** Scenario A: three URLs, the second fetch times out, the other two
    pages give text; the corpus is the two texts around a blank line. *)
Example scenario_three_pages :
  fst (process_query env_three_pages "q" 5 50 "mistral-small-latest" 150 [])
  = Ret (VStr ("a" ++ newline ++ newline ++ "c")).
Proof. reflexivity. Qed.

(** Scenario C: every fetch succeeds and no page has main content; the
    corpus and the result are empty and nothing is posted. *)
Example scenario_no_main_content :
  process_query env_no_main_content "q" 5 50 "mistral-small-latest" 150 []
  = (Ret (VStr EmptyString),
     [EvSearch "q" 5; EvScrape "a"; EvDriverStart 2; EvDriverQuit 2;
      EvScrape "b"; EvDriverStart 5; EvDriverQuit 5;
      EvExtract "a"; EvExtract "b"]).
Proof. reflexivity. Qed.

(** A reply of the documented shape: the completion, stripped. *)
Example scenario_refined :
  fst (process_query env_refined "q" 5 50 "mistral-small-latest" 150 [])
  = Ret (VStr "Refined.").
Proof. reflexivity. Qed.

(** C1. At a query for which the provider finds nothing,
    [process_query] returns the empty dict of line 138, which is not the
    empty string that the docstring of the function promises. *)
Theorem process_query_without_urls_returns_dict :
  process_query env_no_results "cabbage" 5 50 "mistral-small-latest" 150 []
    = (Ret (VDict []), [EvSearch "cabbage" 5])
  /\ VDict [] <> VStr EmptyString.
Proof.
  split; [|discriminate].
  apply process_query_no_urls. reflexivity.
Qed.

(** C2. When the run has computed a first summary and refinement is
    skipped or fails (no credential, a transport error or timeout of the
    post, an HTTP error status, a body that does not decode, a reply
    without a usable completion), [process_query] returns that first
    summary, unchanged, and raises nothing. *)
Theorem refinement_fallback_is_first_summary (env : environment)
    (query : string) (num_results summary_sentences : Z) (model : string)
    (max_tokens : Z) (t : trace) (corpus first_summary : string)
    (t4 : trace) :
  reaches_refinement env query num_results summary_sentences t corpus
    first_summary t4 ->
  refinement_unavailable env
    (t4 ++ [EvPost (mistral_request env query first_summary model max_tokens)])
    (mistral_request env query first_summary model max_tokens) ->
  exists t' : trace,
    process_query env query num_results summary_sentences model max_tokens t
      = (Ret (VStr first_summary), t').
Proof.
  intros (urls & sd & et & t3 & Hrun & -> & Hne & Hsum & ->) Hfail.
  rewrite (process_query_from_corpus summary_sentences model max_tokens Hrun).
  apply truthy_str_true in Hne. rewrite Hne. cbn [negb].
  unfold bind at 1. unfold bind at 1. rewrite Hsum.
  unfold bind at 1. unfold emit.
  destruct (@second_summarization_fallback env query first_summary model
              max_tokens _ Hfail) as (t' & Hs & _).
  rewrite Hs. unfold ret. eauto.
Qed.

Lemma refinement_fallback_is_first_summary_witness :
  exists t' : trace,
    process_query env_http_500 "q" 5 50 "mistral-small-latest" 150 []
      = (Ret (VStr "a"), t').
Proof.
  apply (@refinement_fallback_is_first_summary env_http_500 "q" 5 50
           "mistral-small-latest" 150 [] "a" "a"
           [EvSearch "q" 5; EvScrape "a"; EvDriverStart 2; EvDriverQuit 2;
            EvExtract "a"; EvFirstSummary "a" "a"]).
  - exists ["a"%string], [("a"%string, Some "<html>a</html>"%string)],
      [("a"%string, Some "a"%string)],
      [EvSearch "q" 5; EvScrape "a"; EvDriverStart 2; EvDriverQuit 2;
       EvExtract "a"].
    split.
    + exists [EvSearch "q" 5],
        [EvSearch "q" 5; EvScrape "a"; EvDriverStart 2; EvDriverQuit 2].
      split; [reflexivity|]. split; [discriminate|].
      split; reflexivity.
    + split; [reflexivity|]. split; [discriminate|].
      split; reflexivity.
  - apply http_error
      with (r := {| status := 500; json_body := Raise JSONDecodeError |}).
    + reflexivity.
    + simpl. lia.
Defined.

(** C3, as stated, fails when the provider lists a URL twice: the two
    fetches share one entry of [scraped_data]. *)
Lemma one_outcome_per_entry_fails_on_duplicates :
  ~ one_outcome_per_entry env_duplicate "q" 5 [].
Proof.
  intro H.
  destruct (H ["u"%string; "u"%string]
              [("u"%string, Some "<html>u</html>"%string)]
              [("u"%string, Some "u"%string)]
              [EvSearch "q" 5; EvScrape "u"; EvDriverStart 2; EvDriverQuit 2;
               EvScrape "u"; EvDriverStart 5; EvDriverQuit 5; EvExtract "u"])
    as [Hlen _]; [|discriminate Hlen].
  exists [EvSearch "q" 5],
    [EvSearch "q" 5; EvScrape "u"; EvDriverStart 2; EvDriverQuit 2;
     EvScrape "u"; EvDriverStart 5; EvDriverQuit 5].
  split; [reflexivity|]. split; [discriminate|]. split; reflexivity.
Qed.

(** C3, amended. For a search result of [k] entries, [scrape_website] is
    called exactly [k] times, and the outcomes are stored under their
    URLs: [scraped_data] has one entry per distinct URL, in the order of
    first occurrence, so at most [k] entries, and exactly [k] if and only
    if no URL is repeated.  The extraction outcomes have the same keys,
    and [trafilatura.extract] is called at most once per entry. *)
Theorem fetch_outcomes_per_distinct_url (env : environment) (query : string)
    (num_results : Z) (t : trace) (urls : list string)
    (scraped_data extracted_texts : dict (option string)) (t3 : trace) :
  reaches_corpus env query num_results t urls scraped_data
    extracted_texts t3 ->
  scrape_calls t3 = scrape_calls t + List.length urls /\
  keys scraped_data = first_occurrences urls /\
  List.length scraped_data <= List.length urls /\
  (List.length scraped_data = List.length urls <-> NoDup urls) /\
  keys extracted_texts = keys scraped_data /\
  List.length extracted_texts = List.length scraped_data /\
  extract_calls t3 <= extract_calls t + List.length scraped_data.
Proof.
  intro Hrun.
  destruct (reaches_corpus_shape Hrun)
    as (Hkeys & Het & evs & n & -> & Hq & Hn & _).
  assert (Hlen : List.length scraped_data
                 = List.length (first_occurrences urls)).
  { rewrite <- Hkeys. unfold keys. now rewrite length_map. }
  split; [now rewrite scrape_calls_app, (quiet_scrapes Hq)|].
  split; [exact Hkeys|].
  split; [rewrite Hlen; apply first_occurrences_length|].
  split; [rewrite Hlen; apply first_occurrences_length_NoDup|].
  split; [|split].
  - subst extracted_texts. unfold keys. rewrite map_map. reflexivity.
  - subst extracted_texts. now rewrite length_map.
  - rewrite extract_calls_app, (quiet_extracts Hq). lia.
Qed.

Lemma fetch_outcomes_per_distinct_url_witness :
  scrape_calls [EvSearch "q" 5; EvScrape "u"; EvDriverStart 2; EvDriverQuit 2;
                EvScrape "u"; EvDriverStart 5; EvDriverQuit 5; EvExtract "u"]
    = scrape_calls [] + List.length ["u"%string; "u"%string] /\
  keys [("u"%string, Some "<html>u</html>"%string)]
    = first_occurrences ["u"%string; "u"%string] /\
  List.length [("u"%string, Some "<html>u</html>"%string)]
    <= List.length ["u"%string; "u"%string] /\
  (List.length [("u"%string, Some "<html>u</html>"%string)]
     = List.length ["u"%string; "u"%string]
   <-> NoDup ["u"%string; "u"%string]) /\
  keys [("u"%string, Some "u"%string)]
    = keys [("u"%string, Some "<html>u</html>"%string)] /\
  List.length [("u"%string, Some "u"%string)]
    = List.length [("u"%string, Some "<html>u</html>"%string)] /\
  extract_calls [EvSearch "q" 5; EvScrape "u"; EvDriverStart 2;
                 EvDriverQuit 2; EvScrape "u"; EvDriverStart 5;
                 EvDriverQuit 5; EvExtract "u"]
    <= extract_calls []
       + List.length [("u"%string, Some "<html>u</html>"%string)].
Proof.
  apply (@fetch_outcomes_per_distinct_url env_duplicate "q" 5 []).
  exists [EvSearch "q" 5],
    [EvSearch "q" 5; EvScrape "u"; EvDriverStart 2; EvDriverQuit 2;
     EvScrape "u"; EvDriverStart 5; EvDriverQuit 5].
  split; [reflexivity|]. split; [discriminate|]. split; reflexivity.
Defined.

(** C4, as stated, fails on a page whose extracted text is a single
    space: the text is not empty, yet the corpus is. *)
Lemma corpus_joins_nonempty_texts_fails_on_blank_page :
  ~ corpus_joins_nonempty_texts env_blank_page "q" 5 [].
Proof.
  intro H.
  specialize (H ["u"%string]
                [("u"%string, Some "<html>u</html>"%string)]
                [("u"%string, Some " "%string)]
                [EvSearch "q" 5; EvScrape "u"; EvDriverStart 2;
                 EvDriverQuit 2; EvExtract "u"]).
  assert (Hrun : reaches_corpus env_blank_page "q" 5 [] ["u"%string]
                   [("u"%string, Some "<html>u</html>"%string)]
                   [("u"%string, Some " "%string)]
                   [EvSearch "q" 5; EvScrape "u"; EvDriverStart 2;
                    EvDriverQuit 2; EvExtract "u"]).
  { exists [EvSearch "q" 5],
      [EvSearch "q" 5; EvScrape "u"; EvDriverStart 2; EvDriverQuit 2].
    split; [reflexivity|]. split; [discriminate|]. split; reflexivity. }
  apply H in Hrun. discriminate Hrun.
Qed.

(** C4, amended. The corpus is the double-newline join of the extracted
    texts that are neither [None], empty nor whitespace-only, in the
    order of the extraction outcomes, which is the order in which their
    URLs first occur in the search result; no contribution is empty or
    blank.  The run never raises, and the primary summarizer is handed
    this corpus, once, exactly when it is not empty. *)
Theorem corpus_joins_nonblank_texts (env : environment) (query : string)
    (num_results summary_sentences : Z) (model : string) (max_tokens : Z)
    (t : trace) (urls : list string)
    (scraped_data extracted_texts : dict (option string)) (t3 : trace) :
  reaches_corpus env query num_results t urls scraped_data
    extracted_texts t3 ->
  combine extracted_texts
    = join (newline ++ newline) (nonblank_texts (values extracted_texts)) /\
  Forall (fun s => s <> EmptyString /\ all_space s = false)
         (nonblank_texts (values extracted_texts)) /\
  keys extracted_texts = first_occurrences urls /\
  exists (v : value) (t' : trace),
    process_query env query num_results summary_sentences model max_tokens t
      = (Ret v, t') /\
    summarized_corpora t'
    = summarized_corpora t
      ++ (if truthy_str (combine extracted_texts)
          then [combine extracted_texts] else []).
Proof.
  intro Hrun.
  destruct (reaches_corpus_shape Hrun)
    as (Hkeys & Het & evs & n & Ht3 & Hq & _ & _).
  split; [unfold combine; now rewrite kept_texts_nonblank|].
  split; [apply nonblank_texts_Forall|].
  split.
  { rewrite <- Hkeys. rewrite Het. unfold keys. now rewrite map_map. }
  assert (Hquiet : summarized_corpora t3 = summarized_corpora t).
  { rewrite Ht3, summarized_corpora_app, (quiet_corpora Hq).
    apply app_nil_r. }
  rewrite (process_query_from_corpus summary_sentences model max_tokens Hrun).
  destruct (truthy_str (combine extracted_texts)); cbn [negb].
  - unfold bind at 1. unfold bind at 1. rewrite summarize_text_run.
    unfold bind at 1. unfold emit.
    match goal with
    | |- context [second_summarization ?e ?q ?f ?m ?k ?tr] =>
        destruct (second_summarization_total e q f m k tr)
          as (final & t' & Hs & Ht')
    end.
    rewrite Hs. unfold ret. do 2 eexists. split; [reflexivity|].
    destruct Ht' as [->| ->];
      rewrite ?summarized_corpora_app, Hquiet; simpl;
      now rewrite ?app_nil_r.
  - unfold bind, ret. do 2 eexists. split; [reflexivity|].
    now rewrite Hquiet, app_nil_r.
Qed.

Lemma corpus_joins_nonblank_texts_witness :
  combine [("a"%string, Some "a"%string); ("b"%string, None);
           ("c"%string, Some "c"%string)]
    = join (newline ++ newline)
        (nonblank_texts
           (values [("a"%string, Some "a"%string); ("b"%string, None);
                    ("c"%string, Some "c"%string)])) /\
  Forall (fun s => s <> EmptyString /\ all_space s = false)
    (nonblank_texts
       (values [("a"%string, Some "a"%string); ("b"%string, None);
                ("c"%string, Some "c"%string)])) /\
  keys [("a"%string, Some "a"%string); ("b"%string, None);
        ("c"%string, Some "c"%string)]
    = first_occurrences ["a"%string; "b"%string; "c"%string] /\
  exists (v : value) (t' : trace),
    process_query env_three_pages "q" 5 50 "mistral-small-latest" 150 []
      = (Ret v, t') /\
    summarized_corpora t'
    = summarized_corpora []
      ++ (if truthy_str
               (combine [("a"%string, Some "a"%string); ("b"%string, None);
                         ("c"%string, Some "c"%string)])
          then [combine [("a"%string, Some "a"%string); ("b"%string, None);
                         ("c"%string, Some "c"%string)]]
          else []).
Proof.
  apply (@corpus_joins_nonblank_texts env_three_pages "q" 5 50
           "mistral-small-latest" 150 [] ["a"%string; "b"%string; "c"%string]
           [("a"%string, Some "<html>a</html>"%string); ("b"%string, None);
            ("c"%string, Some "<html>c</html>"%string)]
           [("a"%string, Some "a"%string); ("b"%string, None);
            ("c"%string, Some "c"%string)]
           [EvSearch "q" 5; EvScrape "a"; EvDriverStart 2; EvDriverQuit 2;
            EvScrape "b"; EvDriverStart 5; EvDriverQuit 5;
            EvScrape "c"; EvDriverStart 8; EvDriverQuit 8;
            EvExtract "a"; EvExtract "c"]).
  exists [EvSearch "q" 5],
    [EvSearch "q" 5; EvScrape "a"; EvDriverStart 2; EvDriverQuit 2;
     EvScrape "b"; EvDriverStart 5; EvDriverQuit 5;
     EvScrape "c"; EvDriverStart 8; EvDriverQuit 8].
  split; [reflexivity|]. split; [discriminate|]. split; reflexivity.
Defined.

(** C5. When the corpus is empty, [process_query] returns the empty
    string straight after the extraction loop: nothing is summarized
    and no refinement request is sent; the primary summarizer itself
    maps the empty corpus to the empty string. *)
Theorem empty_corpus_short_circuits (env : environment) (query : string)
    (num_results summary_sentences : Z) (model : string) (max_tokens : Z)
    (t : trace) (urls : list string)
    (scraped_data extracted_texts : dict (option string)) (t3 : trace) :
  reaches_corpus env query num_results t urls scraped_data
    extracted_texts t3 ->
  combine extracted_texts = EmptyString ->
  process_query env query num_results summary_sentences model max_tokens t
    = (Ret (VStr EmptyString), t3) /\
  summarize_text env (VStr (combine extracted_texts)) summary_sentences t3
    = (Ret EmptyString, t3) /\
  post_calls t3 = post_calls t /\
  summarized_corpora t3 = summarized_corpora t.
Proof.
  intros Hrun Hempty.
  destruct (reaches_corpus_shape Hrun)
    as (_ & _ & evs & n & Ht3 & Hq & _ & _).
  split; [|split; [|split]].
  - rewrite (process_query_from_corpus summary_sentences model max_tokens
               Hrun).
    rewrite Hempty. reflexivity.
  - rewrite Hempty. reflexivity.
  - rewrite Ht3, post_calls_app, (quiet_posts Hq). apply app_nil_r.
  - rewrite Ht3, summarized_corpora_app, (quiet_corpora Hq). apply app_nil_r.
Qed.

Lemma empty_corpus_short_circuits_witness :
  process_query env_blank_page "q" 5 50 "mistral-small-latest" 150 []
    = (Ret (VStr EmptyString),
       [EvSearch "q" 5; EvScrape "u"; EvDriverStart 2; EvDriverQuit 2;
        EvExtract "u"]) /\
  summarize_text env_blank_page
    (VStr (combine [("u"%string, Some " "%string)])) 50
    [EvSearch "q" 5; EvScrape "u"; EvDriverStart 2; EvDriverQuit 2;
     EvExtract "u"]
    = (Ret EmptyString,
       [EvSearch "q" 5; EvScrape "u"; EvDriverStart 2; EvDriverQuit 2;
        EvExtract "u"]) /\
  post_calls [EvSearch "q" 5; EvScrape "u"; EvDriverStart 2; EvDriverQuit 2;
              EvExtract "u"] = post_calls [] /\
  summarized_corpora [EvSearch "q" 5; EvScrape "u"; EvDriverStart 2;
                      EvDriverQuit 2; EvExtract "u"]
    = summarized_corpora [].
Proof.
  apply (@empty_corpus_short_circuits env_blank_page "q" 5 50
           "mistral-small-latest" 150 [] ["u"%string]
           [("u"%string, Some "<html>u</html>"%string)]
           [("u"%string, Some " "%string)]).
  - exists [EvSearch "q" 5],
      [EvSearch "q" 5; EvScrape "u"; EvDriverStart 2; EvDriverQuit 2].
    split; [reflexivity|]. split; [discriminate|]. split; reflexivity.
  - reflexivity.
Defined.

(** C7. On a corpus that is empty or made of whitespace only, and
    whenever the summarisation machinery raises, [summarize_text]
    returns the empty string and raises nothing. *)
Theorem summarize_text_empty_on_blank_or_failure (env : environment)
    (text : string) (sentences_count : Z) (t : trace) :
  all_space text = true
  \/ (exists e, lsa_sentences env text sentences_count = Raise e) ->
  summarize_text env (VStr text) sentences_count t = (Ret EmptyString, t).
Proof.
  intro H. rewrite summarize_text_run.
  destruct H as [->|[e ->]]; [reflexivity|].
  now destruct (all_space text).
Qed.

Lemma summarize_text_empty_on_blank_or_failure_witness :
  summarize_text env_lsa_fails (VStr "  ") 50 [] = (Ret EmptyString, [])
  /\ summarize_text env_lsa_fails (VStr "Cabbage is a vegetable.") 50 []
     = (Ret EmptyString, []).
Proof.
  split.
  - apply (@summarize_text_empty_on_blank_or_failure env_lsa_fails "  " 50 []).
    left. reflexivity.
  - apply (@summarize_text_empty_on_blank_or_failure env_lsa_fails
             "Cabbage is a vegetable." 50 []).
    right. exists (OtherException "LookupError"). reflexivity.
Defined.

(** C10. An extraction outcome whose text is not empty but made of
    whitespace only leaves no mark on the corpus: neither its text nor
    a separator. *)
Theorem whitespace_only_text_is_omitted
    (before after : dict (option string)) (url text : string) :
  text <> EmptyString ->
  all_space text = true ->
  combine (before ++ (url, Some text) :: after) = combine (before ++ after).
Proof.
  intros _ Hblank. unfold combine, values.
  rewrite !kept_texts_nonblank, !map_app, !nonblank_texts_app.
  simpl. unfold nonblank_texts at 2. simpl. now rewrite Hblank.
Qed.

Lemma whitespace_only_text_is_omitted_witness :
  combine ([("a"%string, Some "one"%string)]
           ++ ("b"%string, Some (" " ++ newline)%string)
              :: [("c"%string, Some "two"%string)])
  = combine ([("a"%string, Some "one"%string)]
             ++ [("c"%string, Some "two"%string)]).
Proof.
  apply (@whitespace_only_text_is_omitted
           [("a"%string, Some "one"%string)]
           [("c"%string, Some "two"%string)] "b" (" " ++ newline)%string).
  - discriminate.
  - reflexivity.
Defined.

End Pipeline.

(* ===================================================================== *)
(** ** search_module.py: what the returned list holds                     *)
(* ===================================================================== *)

Module SearchOrder.

Import SearchModule SearchFacts.

Lemma hrefs_all (results : list hit) :
  Forall (fun r => href_of r <> None) results ->
  exists urls : list string,
    hrefs results = Ret urls /\ map Some urls = map href_of results.
Proof.
  induction 1 as [|r rest Hr _ IH]; simpl.
  - exists []. auto.
  - unfold href_of in *. destruct (dict_get "href" r) as [h|]; [|now elim Hr].
    destruct IH as (urls & -> & Hmap). exists (h :: urls).
    split; [reflexivity|]. simpl. now rewrite Hmap.
Qed.

Lemma hrefs_missing (results : list hit) (r : hit) :
  In r results -> href_of r = None -> hrefs results = Raise KeyError.
Proof.
  unfold href_of. induction results as [|x rest IH]; simpl; [tauto|].
  intros [->|Hin] Hr.
  - now rewrite Hr.
  - destruct (dict_get "href" x); [|reflexivity].
    now rewrite (IH Hin Hr).
Qed.

(** X1. When every hit of the provider carries an [href], [search_urls]
    returns these hrefs, one per hit, in the provider's order, a URL
    listed twice being kept twice. *)
Theorem search_urls_keeps_provider_order (env : environment)
    (query : string) (num_results : Z) (t : trace) (results : list hit) :
  ddgs_text env (t ++ [EvSearch query num_results]) query num_results
    = Ret results ->
  Forall (fun r => href_of r <> None) results ->
  exists urls : list string,
    search_urls env query num_results t
      = (Ret urls, t ++ [EvSearch query num_results]) /\
    map Some urls = map href_of results.
Proof.
  intros Hd Hall. rewrite search_urls_run. cbv zeta. rewrite Hd.
  destruct (hrefs_all Hall) as (urls & -> & Hmap). eauto.
Qed.

Lemma search_urls_keeps_provider_order_witness :
  exists urls : list string,
    search_urls Scenarios.env_duplicate "q" 5 []
      = (Ret urls, [] ++ [EvSearch "q" 5]) /\
    map Some urls
    = map href_of [Scenarios.hit_of "u"; Scenarios.hit_of "u"].
Proof.
  apply (@search_urls_keeps_provider_order Scenarios.env_duplicate "q" 5 []
           [Scenarios.hit_of "u"; Scenarios.hit_of "u"]).
  - reflexivity.
  - repeat constructor; discriminate.
Defined.

(** X2. One hit without an [href] empties the whole result: the KeyError of
    the list comprehension is caught with the provider errors, and the
    URLs of the other hits are lost. *)
Theorem search_urls_all_or_nothing (env : environment)
    (query : string) (num_results : Z) (t : trace) (results : list hit)
    (r : hit) :
  ddgs_text env (t ++ [EvSearch query num_results]) query num_results
    = Ret results ->
  In r results ->
  href_of r = None ->
  search_urls env query num_results t
    = (Ret [], t ++ [EvSearch query num_results]).
Proof.
  intros Hd Hin Hr. rewrite search_urls_run. cbv zeta. rewrite Hd.
  now rewrite (hrefs_missing _ _ Hin Hr).
Qed.

Lemma search_urls_all_or_nothing_witness :
  search_urls Scenarios2.env_hit_without_href "q" 5 []
    = (Ret [], [] ++ [EvSearch "q" 5]).
Proof.
  apply (@search_urls_all_or_nothing Scenarios2.env_hit_without_href "q" 5 []
           [Scenarios.hit_of "a"; [("title"%string, "t"%string)]]
           [("title"%string, "t"%string)]).
  - reflexivity.
  - right. left. reflexivity.
  - reflexivity.
Defined.

End SearchOrder.

(* ===================================================================== *)
(** ** main_processor.py: the fetch and extraction loops                  *)
(* ===================================================================== *)

Module LoopFacts.

Import SearchModule Scraper MainProcessor.
Import PyFacts SearchFacts ScraperFacts DictFacts StageFacts.

Lemma dict_get_set_same {V : Type} (k : string) (v : V) (d : dict V) :
  dict_get k (dict_set k v d) = Some v.
Proof.
  induction d as [|[k' v'] d IH]; simpl.
  - now rewrite String.eqb_refl.
  - destruct (k =? k')%string eqn:E; simpl; now rewrite E.
Qed.

Lemma dict_get_set_other {V : Type} (k u : string) (v : V) (d : dict V) :
  k <> u -> dict_get u (dict_set k v d) = dict_get u d.
Proof.
  intro Hne. induction d as [|[k' v'] d IH]; simpl.
  - destruct (u =? k)%string eqn:E; [|reflexivity].
    apply String.eqb_eq in E. congruence.
  - destruct (k =? k')%string eqn:E; simpl.
    + apply String.eqb_eq in E. subst k'.
      destruct (u =? k)%string eqn:E'; [|reflexivity].
      apply String.eqb_eq in E'. congruence.
    + now rewrite IH.
Qed.

Lemma dict_get_map {A B : Type} (f : A -> B) (u : string) (d : dict A) :
  dict_get u (map (fun p => (fst p, f (snd p))) d)
  = option_map f (dict_get u d).
Proof.
  induction d as [|[k v] d IH]; simpl; [reflexivity|].
  destruct (u =? k)%string; [reflexivity|exact IH].
Qed.

(** The loop over a concatenation is the loop over its first part
    followed by the loop over the rest. *)
Lemma fetch_loop_app (env : environment) (urls1 urls2 : list string)
    (scraped_data : dict (option string)) (t : trace) :
  fetch_loop env (urls1 ++ urls2) scraped_data t
  = (scraped_data' <- fetch_loop env urls1 scraped_data ;;
     fetch_loop env urls2 scraped_data') t.
Proof.
  revert scraped_data t.
  induction urls1 as [|u urls1 IH]; intros scraped_data t; simpl.
  - reflexivity.
  - unfold bind.
    destruct (scrape_website env u DEFAULT_WAIT_TIMEOUT t) as [[r|e] t1];
      [|reflexivity].
    rewrite IH. reflexivity.
Qed.

(** Fetching other URLs leaves the entry of [u] alone. *)
Lemma fetch_loop_other (env : environment) (urls : list string) (u : string)
    (scraped_data scraped_data' : dict (option string)) (t t' : trace) :
  ~ In u urls ->
  fetch_loop env urls scraped_data t = (Ret scraped_data', t') ->
  dict_get u scraped_data' = dict_get u scraped_data.
Proof.
  revert scraped_data t.
  induction urls as [|x urls IH]; intros scraped_data t Hnin Hrun.
  - simpl in Hrun. now inversion Hrun.
  - simpl in Hrun. unfold bind in Hrun.
    destruct (scrape_website env x DEFAULT_WAIT_TIMEOUT t) as [[r|e] t1];
      [|discriminate].
    rewrite (IH _ _ (fun H => Hnin (or_intror H)) Hrun).
    apply dict_get_set_other. intros ->. apply Hnin. now left.
Qed.

(** X4. When the fetch loop returns, the entry that [scraped_data]
    keeps for a URL is the outcome of its last fetch: a later fetch of
    the same URL overwrites the earlier outcome, success or failure,
    and the fetches of other URLs leave it untouched. *)
Theorem fetch_loop_keeps_last_outcome (env : environment)
    (urls1 urls2 : list string) (u : string)
    (scraped_data scraped_data' : dict (option string)) (t t' : trace) :
  ~ In u urls2 ->
  fetch_loop env (urls1 ++ u :: urls2) scraped_data t
    = (Ret scraped_data', t') ->
  exists (sd1 : dict (option string)) (t1 : trace) (r : option string)
         (t2 : trace),
    fetch_loop env urls1 scraped_data t = (Ret sd1, t1) /\
    scrape_website env u DEFAULT_WAIT_TIMEOUT t1 = (Ret r, t2) /\
    fetch_loop env urls2 (dict_set u r sd1) t2 = (Ret scraped_data', t') /\
    dict_get u scraped_data' = Some r.
Proof.
  intros Hnin Hrun. rewrite fetch_loop_app in Hrun. unfold bind in Hrun.
  destruct (fetch_loop env urls1 scraped_data t) as [[sd1|e] t1] eqn:H1;
    [|discriminate].
  cbn [fetch_loop] in Hrun. unfold bind in Hrun.
  destruct (scrape_website env u DEFAULT_WAIT_TIMEOUT t1) as [[r|e] t2] eqn:H2;
    [|discriminate].
  exists sd1, t1, r, t2.
  split; [reflexivity|]. split; [exact H2|]. split; [exact Hrun|].
  transitivity (dict_get u (dict_set u r sd1));
    [eapply fetch_loop_other; eassumption|apply dict_get_set_same].
Qed.

Lemma fetch_loop_keeps_last_outcome_witness :
  exists (sd1 : dict (option string)) (t1 : trace) (r : option string)
         (t2 : trace),
    fetch_loop Scenarios2.env_second_fetch_fails ["u"%string] [] []
      = (Ret sd1, t1) /\
    scrape_website Scenarios2.env_second_fetch_fails "u"
      DEFAULT_WAIT_TIMEOUT t1 = (Ret r, t2) /\
    fetch_loop Scenarios2.env_second_fetch_fails [] (dict_set "u" r sd1) t2
      = (Ret [("u"%string, None)],
         [EvScrape "u"; EvDriverStart 1; EvDriverQuit 1;
          EvScrape "u"; EvDriverStart 4; EvDriverQuit 4]) /\
    dict_get "u" [("u"%string, None)] = Some r.
Proof.
  apply (@fetch_loop_keeps_last_outcome Scenarios2.env_second_fetch_fails
           ["u"%string] [] "u" [] [("u"%string, None)] []
           [EvScrape "u"; EvDriverStart 1; EvDriverQuit 1;
            EvScrape "u"; EvDriverStart 4; EvDriverQuit 4]).
  - simpl. tauto.
  - reflexivity.
Defined.

(** The first fetch of the page succeeds, the second one times out, and
    the failure is what the run keeps. *)
Example second_fetch_overwrites_first :
  fst (fetch_loop Scenarios2.env_second_fetch_fails
         ["u"%string; "u"%string] [] [])
  = Ret [("u"%string, None)]
  /\ fst (fetch_loop Scenarios2.env_second_fetch_fails ["u"%string] [] [])
     = Ret [("u"%string, Some "<html>u</html>"%string)].
Proof. split; reflexivity. Qed.

(** X3. The fetch loop calls [scrape_website] on the entries of the list
    in order.  When it returns, every entry was fetched once and the
    browser sessions open after the loop are those open before it.  It
    raises only when a [driver.quit()] raised: the loop then stops at
    that entry, the entries after it are never fetched, and the session
    of the failed quit is left open. *)
Theorem fetch_loop_visits_in_order (env : environment) (urls : list string)
    (scraped_data : dict (option string)) (t : trace) :
  exists (r : result (dict (option string))) (t' : trace)
         (visited : list string),
    fetch_loop env urls scraped_data t = (r, t') /\
    filter is_scrape t' = filter is_scrape t ++ map EvScrape visited /\
    match r with
    | Ret _ => visited = urls /\ open_drivers t' = open_drivers t
    | Raise _ =>
        (exists rest, urls = visited ++ rest) /\
        (exists d, open_drivers t' = d :: open_drivers t)
    end.
Proof.
  revert scraped_data t.
  induction urls as [|url urls IH]; intros scraped_data t; simpl.
  - exists (Ret scraped_data), t, []. now rewrite app_nil_r.
  - destruct (scrape_website_outcome env url DEFAULT_WAIT_TIMEOUT t)
      as (r & evs & Hrun & Hcase).
    unfold bind. rewrite Hrun. destruct r as [html|e].
    + destruct Hcase as [Hevs Hopen].
      destruct (IH (dict_set url html scraped_data)
                   (t ++ EvScrape url :: evs))
        as (r' & t' & visited & Hloop & Hscr & Hcase').
      exists r', t', (url :: visited). split; [exact Hloop|]. split.
      * rewrite Hscr, filter_app, <- app_assoc. f_equal.
        destruct Hevs as [->|[d ->]]; reflexivity.
      * destruct r' as [sd'|e'].
        -- destruct Hcase' as [-> Hopen']. now rewrite Hopen', Hopen.
        -- destruct Hcase' as [[rest ->] [d Hopen']].
           split; [now exists rest|]. exists d. now rewrite Hopen', Hopen.
    + destruct Hcase as (d & -> & Hopen).
      exists (Raise e), (t ++ [EvScrape url; EvDriverStart d]), [url].
      split; [reflexivity|]. split; [now rewrite filter_app|].
      split; [now exists urls|]. now exists d.
Qed.

End LoopFacts.

(* ===================================================================== *)
(** ** main_processor.py: extraction outcomes and the corpus              *)
(* ===================================================================== *)

Module CorpusFacts.

Import SearchModule Scraper MainProcessor.
Import PyFacts SearchFacts ScraperFacts DictFacts StageFacts PipelineFacts
       LoopFacts.

(** Discharge a [reaches_corpus] at a concrete environment by running
    the three stages up to the traces [t1] and [t2]. *)
Ltac run_stages t1 t2 :=
  exists t1, t2;
  split; [reflexivity|split; [discriminate|split; reflexivity]].

Lemma filter_all_true {A : Type} (f : A -> bool) (l : list A) :
  Forall (fun x => f x = true) l -> filter f l = l.
Proof.
  induction 1 as [|x l Hx _ IH]; simpl; [reflexivity|].
  now rewrite Hx, IH.
Qed.

Lemma extract_calls_map {A : Type} (f : A -> string) (l : list A) :
  extract_calls (map (fun p => EvExtract (f p)) l) = List.length l.
Proof.
  unfold extract_calls. rewrite filter_all_true; [apply length_map|].
  apply Forall_forall. intros e He. apply in_map_iff in He.
  destruct He as (p & <- & _). reflexivity.
Qed.

(** X5. The extractor is called exactly once for each entry of
    [scraped_data] that holds markup, after all fetches and in the order
    of the entries; an entry whose fetch failed or gave empty markup is
    never handed to it. *)
Theorem extractor_called_once_per_markup (env : environment)
    (query : string) (num_results : Z) (t : trace) (urls : list string)
    (scraped_data extracted_texts : dict (option string)) (t3 : trace) :
  reaches_corpus env query num_results t urls scraped_data
    extracted_texts t3 ->
  exists t2 : trace,
    fetch_loop env urls [] (t ++ [EvSearch query num_results])
      = (Ret scraped_data, t2) /\
    t3 = t2 ++ map (fun p => EvExtract (fst p))
                   (filter has_markup scraped_data) /\
    extract_calls t3
    = extract_calls t + List.length (filter has_markup scraped_data).
Proof.
  intros (t1 & t2 & Hsearch & Hne & Hfetch & Hextract).
  rewrite search_urls_run in Hsearch. cbv zeta in Hsearch.
  injection Hsearch as _ <-.
  destruct (extract_loop_run _ _ _ _ Hextract) as [_ ->].
  exists t2. split; [exact Hfetch|]. split; [reflexivity|].
  destruct (fetch_loop_run _ _ _ _ Hfetch) as (evs & -> & _ & Hq & _).
  rewrite !extract_calls_app, (quiet_extracts Hq).
  rewrite extract_calls_map.
  change (extract_calls [EvSearch query num_results]) with 0.
  lia.
Qed.

Lemma extractor_called_once_per_markup_witness :
  exists t2 : trace,
    fetch_loop Scenarios.env_three_pages
      ["a"%string; "b"%string; "c"%string] [] ([] ++ [EvSearch "q" 5])
      = (Ret [("a"%string, Some "<html>a</html>"%string); ("b"%string, None);
              ("c"%string, Some "<html>c</html>"%string)], t2) /\
    [EvSearch "q" 5; EvScrape "a"; EvDriverStart 2; EvDriverQuit 2;
     EvScrape "b"; EvDriverStart 5; EvDriverQuit 5;
     EvScrape "c"; EvDriverStart 8; EvDriverQuit 8;
     EvExtract "a"; EvExtract "c"]
    = t2 ++ map (fun p => EvExtract (fst p))
              (filter has_markup
                 [("a"%string, Some "<html>a</html>"%string);
                  ("b"%string, None);
                  ("c"%string, Some "<html>c</html>"%string)]) /\
    extract_calls
      [EvSearch "q" 5; EvScrape "a"; EvDriverStart 2; EvDriverQuit 2;
       EvScrape "b"; EvDriverStart 5; EvDriverQuit 5;
       EvScrape "c"; EvDriverStart 8; EvDriverQuit 8;
       EvExtract "a"; EvExtract "c"]
    = extract_calls []
      + List.length
          (filter has_markup
             [("a"%string, Some "<html>a</html>"%string); ("b"%string, None);
              ("c"%string, Some "<html>c</html>"%string)]).
Proof.
  apply (@extractor_called_once_per_markup Scenarios.env_three_pages "q" 5 []
           ["a"%string; "b"%string; "c"%string]
           [("a"%string, Some "<html>a</html>"%string); ("b"%string, None);
            ("c"%string, Some "<html>c</html>"%string)]
           [("a"%string, Some "a"%string); ("b"%string, None);
            ("c"%string, Some "c"%string)]
           [EvSearch "q" 5; EvScrape "a"; EvDriverStart 2; EvDriverQuit 2;
            EvScrape "b"; EvDriverStart 5; EvDriverQuit 5;
            EvScrape "c"; EvDriverStart 8; EvDriverQuit 8;
            EvExtract "a"; EvExtract "c"]).
  run_stages
    [EvSearch "q" 5]
    [EvSearch "q" 5; EvScrape "a"; EvDriverStart 2; EvDriverQuit 2;
     EvScrape "b"; EvDriverStart 5; EvDriverQuit 5;
     EvScrape "c"; EvDriverStart 8; EvDriverQuit 8].
Defined.

Lemma extraction_outcome_not_empty (env : environment)
    (html_content : option string) :
  extraction_outcome env html_content <> Some EmptyString.
Proof.
  unfold extraction_outcome. destruct html_content as [html|]; [|discriminate].
  destruct (truthy_str html); [|discriminate].
  destruct (trafilatura_extract env html) as [[[|c s]|]|e]; simpl;
    discriminate.
Qed.

(** X6. After the extraction loop every URL of [scraped_data] has an entry
    in [extracted_texts]: [None] when its fetch failed, gave empty
    markup, or the extractor found nothing or the empty string, and the
    extracted text otherwise.  No entry holds the empty string. *)
Theorem extraction_outcomes_by_url (env : environment)
    (query : string) (num_results : Z) (t : trace) (urls : list string)
    (scraped_data extracted_texts : dict (option string)) (t3 : trace) :
  reaches_corpus env query num_results t urls scraped_data
    extracted_texts t3 ->
  (forall u : string,
     dict_get u extracted_texts
     = option_map (extraction_outcome env) (dict_get u scraped_data)) /\
  Forall (fun text => text <> Some EmptyString) (values extracted_texts).
Proof.
  intro Hrun. destruct (reaches_corpus_shape Hrun) as (_ & -> & _).
  split.
  - intro u. apply dict_get_map.
  - unfold values. rewrite map_map. apply Forall_forall.
    intros text Hin. apply in_map_iff in Hin. destruct Hin as (p & <- & _).
    apply extraction_outcome_not_empty.
Qed.

Lemma extraction_outcomes_by_url_witness :
  (forall u : string,
     dict_get u [("a"%string, Some "a"%string); ("b"%string, None);
                 ("c"%string, Some "c"%string)]
     = option_map (extraction_outcome Scenarios.env_three_pages)
         (dict_get u [("a"%string, Some "<html>a</html>"%string);
                      ("b"%string, None);
                      ("c"%string, Some "<html>c</html>"%string)])) /\
  Forall (fun text => text <> Some EmptyString)
    (values [("a"%string, Some "a"%string); ("b"%string, None);
             ("c"%string, Some "c"%string)]).
Proof.
  apply (@extraction_outcomes_by_url Scenarios.env_three_pages "q" 5 []
           ["a"%string; "b"%string; "c"%string]
           [("a"%string, Some "<html>a</html>"%string); ("b"%string, None);
            ("c"%string, Some "<html>c</html>"%string)]
           [("a"%string, Some "a"%string); ("b"%string, None);
            ("c"%string, Some "c"%string)]
           [EvSearch "q" 5; EvScrape "a"; EvDriverStart 2; EvDriverQuit 2;
            EvScrape "b"; EvDriverStart 5; EvDriverQuit 5;
            EvScrape "c"; EvDriverStart 8; EvDriverQuit 8;
            EvExtract "a"; EvExtract "c"]).
  run_stages
    [EvSearch "q" 5]
    [EvSearch "q" 5; EvScrape "a"; EvDriverStart 2; EvDriverQuit 2;
     EvScrape "b"; EvDriverStart 5; EvDriverQuit 5;
     EvScrape "c"; EvDriverStart 8; EvDriverQuit 8].
Defined.

(** *** The corpus *)

Lemma all_space_app (s1 s2 : string) :
  all_space (s1 ++ s2) = all_space s1 && all_space s2.
Proof.
  induction s1 as [|c s1 IH]; simpl; [reflexivity|].
  now rewrite IH, andb_assoc.
Qed.

Lemma append_empty_r (s : string) : (s ++ EmptyString)%string = s.
Proof. induction s as [|c s IH]; simpl; congruence. Qed.

Lemma append_assoc (s1 s2 s3 : string) :
  ((s1 ++ s2) ++ s3)%string = (s1 ++ (s2 ++ s3))%string.
Proof. induction s1 as [|c s1 IH]; simpl; congruence. Qed.

Lemma join_cons (sep x : string) (l : list string) :
  l <> [] -> join sep (x :: l) = (x ++ sep ++ join sep l)%string.
Proof. destruct l; [congruence|reflexivity]. Qed.

(** Joining two lists: the separator appears between them when both
    have elements. *)
Lemma join_app (sep : string) (l1 l2 : list string) :
  l1 <> [] -> l2 <> [] ->
  join sep (l1 ++ l2) = (join sep l1 ++ sep ++ join sep l2)%string.
Proof.
  intros H1 H2. induction l1 as [|x l1 IH]; [congruence|].
  destruct l1 as [|y l1].
  - simpl app. now rewrite join_cons.
  - change ((x :: y :: l1) ++ l2) with (x :: ((y :: l1) ++ l2)).
    rewrite !join_cons by discriminate.
    rewrite IH by discriminate. now rewrite !append_assoc.
Qed.

Lemma join_not_blank (sep : string) (l : list string) :
  l <> [] ->
  Forall (fun s => s <> EmptyString /\ all_space s = false) l ->
  all_space (join sep l) = false.
Proof.
  intros Hne Hall. destruct Hall as [|x l [_ Hx] _]; [congruence|].
  destruct l as [|y l]; [exact Hx|].
  rewrite join_cons by discriminate. now rewrite all_space_app, Hx.
Qed.

(** X7. The corpus is empty exactly when the extraction left no text with
    a character other than whitespace. *)
Theorem corpus_empty_iff_all_blank (processed_content : dict (option string)) :
  combine processed_content = EmptyString
  <-> (forall s : string,
         In (Some s) (values processed_content) -> all_space s = true).
Proof.
  unfold combine. rewrite kept_texts_nonblank.
  set (texts := values processed_content). split.
  - intros Hempty s Hin. destruct (all_space s) eqn:E; [reflexivity|].
    assert (Hk : In s (nonblank_texts texts))
      by (apply nonblank_texts_In; auto).
    assert (Hne : nonblank_texts texts <> [])
      by (intro H0; rewrite H0 in Hk; contradiction).
    pose proof (join_not_blank (newline ++ newline) Hne
                  (nonblank_texts_Forall texts)) as Hb.
    rewrite Hempty in Hb. discriminate.
  - intro Hall.
    assert (Hnil : nonblank_texts texts = []).
    { destruct (nonblank_texts texts) as [|s l] eqn:E; [reflexivity|].
      assert (Hin : In s (nonblank_texts texts)) by (rewrite E; now left).
      apply nonblank_texts_In in Hin as [Hin Hs].
      rewrite (Hall s Hin) in Hs. discriminate. }
    now rewrite Hnil.
Qed.

(** X8. A corpus that is not empty holds a character other than whitespace,
    so the guard of line 97 never stops the summarization that
    [process_query] asks for: the first summary is the sentences chosen
    by sumy joined by single spaces, and the empty string only when
    sumy raises. *)
Theorem nonempty_corpus_passes_guard (env : environment)
    (processed_content : dict (option string)) (sentences_count : Z)
    (t : trace) :
  combine processed_content <> EmptyString ->
  all_space (combine processed_content) = false /\
  summarize_text env (VStr (combine processed_content)) sentences_count t
  = (Ret match lsa_sentences env (combine processed_content)
                 sentences_count with
         | Ret sentences => join " " sentences
         | Raise _ => EmptyString
         end, t).
Proof.
  intro Hne.
  assert (Hb : all_space (combine processed_content) = false).
  { unfold combine in *. rewrite kept_texts_nonblank in *.
    apply join_not_blank; [|apply nonblank_texts_Forall].
    intro H0. rewrite H0 in Hne. now apply Hne. }
  split; [exact Hb|]. rewrite summarize_text_run. now rewrite Hb.
Qed.

Lemma nonempty_corpus_passes_guard_witness :
  all_space (combine [("a"%string, Some "a"%string); ("b"%string, None);
                      ("c"%string, Some "c"%string)]) = false /\
  summarize_text Scenarios.env_three_pages
    (VStr (combine [("a"%string, Some "a"%string); ("b"%string, None);
                    ("c"%string, Some "c"%string)])) 50 []
  = (Ret match lsa_sentences Scenarios.env_three_pages
                 (combine [("a"%string, Some "a"%string); ("b"%string, None);
                           ("c"%string, Some "c"%string)]) 50 with
         | Ret sentences => join " " sentences
         | Raise _ => EmptyString
         end, []).
Proof.
  apply (@nonempty_corpus_passes_guard Scenarios.env_three_pages
           [("a"%string, Some "a"%string); ("b"%string, None);
            ("c"%string, Some "c"%string)] 50 []).
  discriminate.
Defined.

Lemma combine_empty_iff_nil (d : dict (option string)) :
  combine d = EmptyString <-> nonblank_texts (values d) = [].
Proof.
  unfold combine. rewrite kept_texts_nonblank. split; [|now intros ->].
  intro H. destruct (nonblank_texts (values d)) as [|s l] eqn:E;
    [reflexivity|].
  assert (Hne : nonblank_texts (values d) <> []) by (rewrite E; discriminate).
  pose proof (join_not_blank (newline ++ newline) Hne
                (nonblank_texts_Forall (values d))) as Hb.
  rewrite E, H in Hb. discriminate.
Qed.

(** X9. The corpus of two groups of outcomes is the corpus of the first,
    a blank line, and the corpus of the second; when one of the two is
    empty it is the other one, without a separator. *)
Theorem combine_app (d1 d2 : dict (option string)) :
  combine (d1 ++ d2)
  = if truthy_str (combine d1) && truthy_str (combine d2)
    then (combine d1 ++ (newline ++ newline) ++ combine d2)%string
    else (combine d1 ++ combine d2)%string.
Proof.
  destruct (truthy_str (combine d1)) eqn:E1;
    destruct (truthy_str (combine d2)) eqn:E2; simpl.
  - apply truthy_str_true in E1, E2.
    rewrite combine_empty_iff_nil in E1, E2.
    unfold combine, values. rewrite !kept_texts_nonblank, map_app,
      nonblank_texts_app.
    now apply join_app.
  - apply truthy_str_false in E2. rewrite E2, append_empty_r.
    apply combine_empty_iff_nil in E2.
    unfold combine, values in *. rewrite !kept_texts_nonblank, map_app,
      nonblank_texts_app, E2. now rewrite app_nil_r.
  - apply truthy_str_false in E1. rewrite E1. simpl.
    apply combine_empty_iff_nil in E1.
    unfold combine, values in *. rewrite !kept_texts_nonblank, map_app,
      nonblank_texts_app, E1. reflexivity.
  - apply truthy_str_false in E1, E2. rewrite E1, E2. simpl.
    apply combine_empty_iff_nil in E1, E2.
    unfold combine, values in *. rewrite !kept_texts_nonblank, map_app,
      nonblank_texts_app, E1, E2. reflexivity.
Qed.

End CorpusFacts.

(* ===================================================================== *)
(** ** main_processor.py: the run as a whole                              *)
(* ===================================================================== *)

Module RunFacts.

Import SearchModule Scraper MainProcessor.
Import PyFacts SearchFacts ScraperFacts DictFacts StageFacts RefinementFacts
       PipelineFacts LoopFacts CorpusFacts.

Lemma rstrip_idempotent (s : string) : rstrip (rstrip s) = rstrip s.
Proof.
  induction s as [|c s IH]; simpl; [reflexivity|].
  destruct (rstrip s) as [|c' r] eqn:E.
  - destruct (isspace c) eqn:Hc; simpl; [reflexivity|]. now rewrite Hc.
  - simpl. simpl in IH. now rewrite IH.
Qed.

Lemma rstrip_keeps_head (c : ascii) (s : string) :
  isspace c = false -> exists r, rstrip (String c s) = String c r.
Proof.
  intro Hc. simpl. destruct (rstrip s); [rewrite Hc|]; eauto.
Qed.

(** What [strip] returns has no whitespace left to strip at either
    end. *)
Lemma strip_idempotent (s : string) : strip (strip s) = strip s.
Proof.
  unfold strip. pose proof (lstrip_head s) as Hhead.
  destruct (lstrip s) as [|c r] eqn:E; [reflexivity|].
  destruct (@rstrip_keeps_head c r Hhead) as (r' & Hr). rewrite Hr.
  simpl lstrip. rewrite Hhead. rewrite <- Hr. apply rstrip_idempotent.
Qed.

(** The trace of the second summarization: the one request, when it is
    sent. *)
Lemma second_summarization_trace (env : environment)
    (query first_summary model : string) (max_tokens : Z) (t : trace) :
  exists final : string,
    second_summarization env query first_summary model max_tokens t
    = (Ret final,
       t ++ refinement_posts env query first_summary model max_tokens).
Proof.
  unfold second_summarization, refinement_posts.
  destruct (truthy_str first_summary && truthy_opt (mistral_api_key env)).
  - destruct (mistral_try_run env query first_summary model max_tokens t)
      as (r & Hrun & _).
    unfold try_except. rewrite Hrun. destruct r as [s|e].
    + eauto.
    + rewrite mistral_except_run. eauto.
  - rewrite app_nil_r.
    destruct (negb (truthy_str first_summary)); unfold ret; eauto.
Qed.

(** The trace of a run after its extraction loop. *)
Lemma process_query_tail (env : environment) (query : string)
    (num_results summary_sentences : Z) (model : string) (max_tokens : Z)
    (t : trace) (urls : list string)
    (scraped_data extracted_texts : dict (option string)) (t3 : trace) :
  reaches_corpus env query num_results t urls scraped_data
    extracted_texts t3 ->
  let corpus := combine extracted_texts in
  let first := primary_summary env corpus summary_sentences in
  exists final : string,
    process_query env query num_results summary_sentences model max_tokens t
    = (Ret (VStr final),
       t3 ++ (if truthy_str corpus
              then EvFirstSummary corpus first
                   :: refinement_posts env query first model max_tokens
              else [])).
Proof.
  intros Hrun corpus first.
  rewrite (process_query_from_corpus summary_sentences model max_tokens Hrun).
  fold corpus. destruct (truthy_str corpus); cbn [negb].
  - unfold bind at 1. unfold bind at 1. rewrite summarize_text_run.
    fold (primary_summary env corpus summary_sentences). fold first.
    unfold bind at 1. unfold emit.
    destruct (second_summarization_trace env query first model max_tokens
                (t3 ++ [EvFirstSummary corpus first])) as (final & Hs).
    rewrite Hs. unfold ret. exists final. now rewrite <- app_assoc.
  - exists EmptyString. unfold bind, ret. now rewrite app_nil_r.
Qed.

Lemma post_calls_refinement_posts (env : environment)
    (query first model : string) (max_tokens : Z) :
  post_calls (refinement_posts env query first model max_tokens)
  = refinement_posts env query first model max_tokens.
Proof.
  unfold refinement_posts.
  destruct (truthy_str first && truthy_opt (mistral_api_key env));
    reflexivity.
Qed.

(** X12. A run sends at most one refinement request, never more (there is
    no retry), whether it returns or raises, and none without a
    credential; the request it sends carries the first summary of the
    run, which is then not empty. *)
Theorem process_query_posts_at_most_once (env : environment)
    (query : string) (num_results summary_sentences : Z) (model : string)
    (max_tokens : Z) (t : trace) :
  exists (r : result value) (t' : trace) (posts : trace),
    process_query env query num_results summary_sentences model max_tokens t
      = (r, t') /\
    post_calls t' = post_calls t ++ posts /\
    (posts = []
     \/ exists corpus first : string,
          posts = [EvPost (mistral_request env query first model max_tokens)]
          /\ In (EvFirstSummary corpus first) t'
          /\ first <> EmptyString
          /\ truthy_opt (mistral_api_key env) = true).
Proof.
  destruct (process_query_cases env query num_results summary_sentences
              model max_tokens t)
    as [Hnone|[(urls & sd & et & t3 & Hrun)
              |(e & evs & _ & _ & _ & Hq & [Hp _] & _)]].
  - exists (Ret (VDict [])), (t ++ [EvSearch query num_results]), [].
    split; [now apply process_query_no_urls|]. split; [|now left].
    rewrite post_calls_app. reflexivity.
  - destruct (process_query_tail summary_sentences model max_tokens Hrun)
      as (final & Hq).
    destruct (reaches_corpus_shape Hrun)
      as (_ & _ & evs & n & Ht3 & Hquiet & _).
    assert (Hp3 : post_calls t3 = post_calls t).
    { rewrite Ht3, post_calls_app, (quiet_posts Hquiet). apply app_nil_r. }
    set (corpus := combine et) in *.
    set (first := primary_summary env corpus summary_sentences) in *.
    do 2 eexists.
    exists (if truthy_str corpus
            then refinement_posts env query first model max_tokens else []).
    split; [exact Hq|]. split.
    + rewrite post_calls_app, Hp3. f_equal.
      destruct (truthy_str corpus); [|reflexivity].
      change (post_calls (EvFirstSummary corpus first
                          :: refinement_posts env query first model max_tokens))
        with (post_calls (refinement_posts env query first model max_tokens)).
      apply post_calls_refinement_posts.
    + destruct (truthy_str corpus); [|now left].
      unfold refinement_posts.
      destruct (truthy_str first) eqn:Hf; [|now left].
      destruct (truthy_opt (mistral_api_key env)) eqn:Hk; [|now left].
      right. exists corpus, first. simpl. split; [reflexivity|].
      split; [apply in_or_app; right; now left|].
      split; [now apply truthy_str_true|reflexivity].
  - exists (Raise e), (t ++ evs), []. split; [exact Hq|].
    split; [now rewrite post_calls_app, Hp|now left].
Qed.

(** X13. When sumy raises on a corpus that is not empty, the run ends with
    the empty string and sends nothing to the refinement endpoint, with
    or without a credential. *)
Theorem summarizer_failure_gives_empty_summary (env : environment)
    (query : string) (num_results summary_sentences : Z) (model : string)
    (max_tokens : Z) (t : trace) (urls : list string)
    (scraped_data extracted_texts : dict (option string)) (t3 : trace)
    (e : exn) :
  reaches_corpus env query num_results t urls scraped_data
    extracted_texts t3 ->
  combine extracted_texts <> EmptyString ->
  lsa_sentences env (combine extracted_texts) summary_sentences = Raise e ->
  process_query env query num_results summary_sentences model max_tokens t
  = (Ret (VStr EmptyString),
     t3 ++ [EvFirstSummary (combine extracted_texts) EmptyString]).
Proof.
  intros Hrun Hne Hlsa.
  rewrite (process_query_from_corpus summary_sentences model max_tokens Hrun).
  apply truthy_str_true in Hne. rewrite Hne. cbn [negb].
  unfold bind at 1. unfold bind at 1. rewrite summarize_text_run.
  rewrite Hlsa. destruct (all_space (combine extracted_texts));
    unfold bind, emit, ret; reflexivity.
Qed.

Lemma summarizer_failure_gives_empty_summary_witness :
  process_query Scenarios.env_lsa_fails "q" 5 50 "mistral-small-latest" 150 []
  = (Ret (VStr EmptyString),
     [EvSearch "q" 5; EvScrape "a"; EvDriverStart 2; EvDriverQuit 2;
      EvExtract "a"]
     ++ [EvFirstSummary (combine [("a"%string, Some "a"%string)])
           EmptyString]).
Proof.
  apply (@summarizer_failure_gives_empty_summary Scenarios.env_lsa_fails
           "q" 5 50 "mistral-small-latest" 150 [] ["a"%string]
           [("a"%string, Some "<html>a</html>"%string)]
           [("a"%string, Some "a"%string)]
           [EvSearch "q" 5; EvScrape "a"; EvDriverStart 2; EvDriverQuit 2;
            EvExtract "a"]
           (OtherException "LookupError")).
  - run_stages [EvSearch "q" 5]
      [EvSearch "q" 5; EvScrape "a"; EvDriverStart 2; EvDriverQuit 2].
  - discriminate.
  - reflexivity.
Defined.

(** X14. With a credential, a first summary that is not empty and a reply
    of status below 400 whose body has the documented shape, the run
    returns the completion of the first choice, stripped; the result
    has no whitespace at either end. *)
Theorem refinement_success_returns_stripped_completion (env : environment)
    (query : string) (num_results summary_sentences : Z) (model : string)
    (max_tokens : Z) (t : trace) (corpus first_summary : string)
    (t4 : trace) (resp : response) (j : value) (s : string) :
  reaches_refinement env query num_results summary_sentences t corpus
    first_summary t4 ->
  first_summary <> EmptyString ->
  truthy_opt (mistral_api_key env) = true ->
  session_post env
    (t4 ++ [EvPost (mistral_request env query first_summary model max_tokens)])
    (mistral_request env query first_summary model max_tokens) = Ret resp ->
  (status resp < 400)%Z ->
  json_body resp = Ret j ->
  completion_of j = Some s ->
  process_query env query num_results summary_sentences model max_tokens t
  = (Ret (VStr (strip s)),
     t4 ++ [EvPost (mistral_request env query first_summary model max_tokens)])
  /\ strip (strip s) = strip s.
Proof.
  intros (urls & sd & et & t3 & Hrun & -> & Hne & Hsum & ->)
         Hfirst Hkey Hpost Hst Hbody Hc.
  split; [|apply strip_idempotent].
  rewrite (process_query_from_corpus summary_sentences model max_tokens Hrun).
  apply truthy_str_true in Hne. rewrite Hne. cbn [negb].
  unfold bind at 1. unfold bind at 1. rewrite Hsum.
  unfold bind at 1. unfold emit.
  rewrite (@second_summarization_refined env query first_summary model
             max_tokens _ resp j s Hfirst Hkey Hpost Hst Hbody Hc).
  reflexivity.
Qed.

Lemma refinement_success_returns_stripped_completion_witness :
  process_query Scenarios.env_refined "q" 5 50 "mistral-small-latest" 150 []
  = (Ret (VStr (strip " Refined. ")),
     [EvSearch "q" 5; EvScrape "a"; EvDriverStart 2; EvDriverQuit 2;
      EvExtract "a"; EvFirstSummary "a" "a"]
     ++ [EvPost (mistral_request Scenarios.env_refined "q" "a"
                   "mistral-small-latest" 150)])
  /\ strip (strip " Refined. ") = strip " Refined. ".
Proof.
  apply (@refinement_success_returns_stripped_completion
           Scenarios.env_refined "q" 5 50 "mistral-small-latest" 150 []
           "a" "a"
           [EvSearch "q" 5; EvScrape "a"; EvDriverStart 2; EvDriverQuit 2;
            EvExtract "a"; EvFirstSummary "a" "a"]
           {| status := 200;
              json_body :=
                Ret (VDict
                  [("id"%string, VStr "cmpl-1");
                   ("choices"%string,
                    VList [VDict
                      [("index"%string, VInt 0);
                       ("message"%string,
                        VDict [("role"%string, VStr "assistant");
                               ("content"%string, VStr " Refined. ")])]])]) |}
           (VDict
              [("id"%string, VStr "cmpl-1");
               ("choices"%string,
                VList [VDict
                  [("index"%string, VInt 0);
                   ("message"%string,
                    VDict [("role"%string, VStr "assistant");
                           ("content"%string, VStr " Refined. ")])]])])
           " Refined. ").
  - exists ["a"%string], [("a"%string, Some "<html>a</html>"%string)],
      [("a"%string, Some "a"%string)],
      [EvSearch "q" 5; EvScrape "a"; EvDriverStart 2; EvDriverQuit 2;
       EvExtract "a"].
    split.
    + run_stages [EvSearch "q" 5]
        [EvSearch "q" 5; EvScrape "a"; EvDriverStart 2; EvDriverQuit 2].
    + split; [reflexivity|]. split; [discriminate|]. split; reflexivity.
  - discriminate.
  - reflexivity.
  - reflexivity.
  - simpl. lia.
  - reflexivity.
  - reflexivity.
Defined.

(** X10. [process_query] returns the empty dict exactly when the search
    gave no URL, right after the search and without fetching anything.
    When the search gave URLs it returns a string, unless a
    [driver.quit()] or the extractor raises: the exception then leaves
    [process_query], before anything was summarized or sent. *)
Theorem process_query_result_shape (env : environment) (query : string)
    (num_results summary_sentences : Z) (model : string) (max_tokens : Z)
    (t : trace) :
  exists (urls : list string) (r : result value) (t' : trace),
    search_urls env query num_results t
      = (Ret urls, t ++ [EvSearch query num_results]) /\
    process_query env query num_results summary_sentences model max_tokens t
      = (r, t') /\
    match urls with
    | [] => r = Ret (VDict []) /\ t' = t ++ [EvSearch query num_results]
    | _ :: _ =>
        (exists s : string, r = Ret (VStr s))
        \/ (exists e : exn,
              r = Raise e /\ post_calls t' = post_calls t /\
              summarized_corpora t' = summarized_corpora t)
    end.
Proof.
  destruct (process_query_cases env query num_results summary_sentences
              model max_tokens t)
    as [Hnone|[(urls & sd & et & t3 & Hrun)
              |(e & evs & u & urls & Hs & Hq & [Hp Hc] & _)]].
  - exists [], (Ret (VDict [])), (t ++ [EvSearch query num_results]).
    split; [exact Hnone|]. split; [now apply process_query_no_urls|auto].
  - destruct (process_query_tail summary_sentences model max_tokens Hrun)
      as (final & Hq).
    destruct Hrun as (t1 & t2 & Hsearch & Hne & _).
    pose proof (search_urls_run env query num_results t) as Hs.
    cbv zeta in Hs. rewrite Hs in Hsearch. injection Hsearch as Hu _.
    rewrite Hu in Hs. exists urls. do 2 eexists.
    split; [exact Hs|]. split; [exact Hq|].
    destruct urls; [now elim Hne|left; eauto].
  - exists (u :: urls), (Raise e), (t ++ evs).
    split; [exact Hs|]. split; [exact Hq|]. right. exists e.
    split; [reflexivity|].
    rewrite post_calls_app, summarized_corpora_app, Hp, Hc.
    now rewrite !app_nil_r.
Qed.

Lemma open_drivers_refinement_posts (env : environment)
    (query first model : string) (max_tokens : Z) (t : trace)
    (corpus : string) :
  open_drivers (t ++ EvFirstSummary corpus first
                     :: refinement_posts env query first model max_tokens)
  = open_drivers t.
Proof.
  rewrite open_drivers_app. unfold refinement_posts.
  destruct (truthy_str first && truthy_opt (mistral_api_key env));
    reflexivity.
Qed.

(** X11. A run of [process_query] that returns ends with exactly the
    browser sessions that were open when it started.  A run that raises
    ends with the same sessions or with one more, the session whose
    [driver.quit()] raised. *)
Theorem process_query_leaves_no_session_open (env : environment)
    (query : string) (num_results summary_sentences : Z) (model : string)
    (max_tokens : Z) (t : trace) :
  exists (r : result value) (t' : trace),
    process_query env query num_results summary_sentences model max_tokens t
      = (r, t') /\
    match r with
    | Ret _ => open_drivers t' = open_drivers t
    | Raise _ =>
        open_drivers t' = open_drivers t
        \/ exists d, open_drivers t' = d :: open_drivers t
    end.
Proof.
  destruct (process_query_cases env query num_results summary_sentences
              model max_tokens t)
    as [Hnone|[(urls & sd & et & t3 & Hrun)
              |(e & evs & _ & _ & _ & Hq & _ & Hopen)]].
  - do 2 eexists. split; [eapply process_query_no_urls; exact Hnone|].
    now rewrite open_drivers_app.
  - destruct (process_query_tail summary_sentences model max_tokens Hrun)
      as (final & Hq).
    destruct (reaches_corpus_shape Hrun)
      as (_ & _ & evs & n & _ & _ & _ & Hopen).
    do 2 eexists. split; [exact Hq|].
    destruct (truthy_str (combine et)).
    + now rewrite open_drivers_refinement_posts.
    + now rewrite app_nil_r.
  - exists (Raise e), (t ++ evs). split; [exact Hq|exact Hopen].
Qed.

End RunFacts.

(* ===================================================================== *)
(** ** main_processor.py: load_config                                     *)
(* ===================================================================== *)

Module ConfigFacts.

Import Config.

Lemma key_eqb_str (a : string) (k : value) :
  key_eqb (VStr a) k = match k with
                       | VStr b => (a =? b)%string
                       | _ => false
                       end.
Proof. destruct k; reflexivity. Qed.

(** An assignment never removes a key. *)
Lemma pd_set_keeps (u k v : value) (d : pydict) :
  pd_get u d <> None -> pd_get u (pd_set k v d) <> None.
Proof.
  induction d as [|[k' v'] d IH]; simpl; [congruence|].
  destruct (key_eqb k k'); simpl;
    destruct (key_eqb u k'); auto; discriminate.
Qed.

Lemma pd_get_set_str_same (a : string) (v : value) (d : pydict) :
  pd_get (VStr a) (pd_set (VStr a) v d) = Some v.
Proof.
  induction d as [|[k' v'] d IH]; cbn [pd_set pd_get].
  - simpl. now rewrite String.eqb_refl.
  - destruct (key_eqb (VStr a) k') eqn:E; cbn [pd_get]; now rewrite E.
Qed.

Lemma pd_get_set_str_other (a b : string) (v : value) (d : pydict) :
  a <> b -> pd_get (VStr a) (pd_set (VStr b) v d) = pd_get (VStr a) d.
Proof.
  intro Hne.
  assert (Hab : (a =? b)%string = false).
  { destruct (a =? b)%string eqn:E; [|reflexivity].
    apply String.eqb_eq in E. congruence. }
  induction d as [|[k' v'] d IH]; cbn [pd_set pd_get].
  - simpl. now rewrite Hab.
  - destruct (key_eqb (VStr b) k') eqn:E; cbn [pd_get].
    + rewrite key_eqb_str in E. destruct k' as [| | |c| |]; try discriminate.
      apply String.eqb_eq in E. subst c. simpl. now rewrite Hab.
    + now rewrite IH.
Qed.

Lemma update_from_pairs_keeps (u : value) (seq : list value)
    (config config' : pydict) :
  update_from_pairs seq config = Ret config' ->
  pd_get u config <> None -> pd_get u config' <> None.
Proof.
  revert config. induction seq as [|x seq IH]; simpl; intros config H Hu.
  - now inversion H; subst.
  - destruct (pair_of x) as [[k v]|]; [|discriminate].
    destruct (hashable k); [|discriminate].
    eapply IH; [exact H|]. now apply pd_set_keeps.
Qed.

Lemma update_from_keys_keeps (u : value) (other : dict value)
    (ks : list string) (config : pydict) :
  pd_get u config <> None ->
  pd_get u (fold_left (fun acc k =>
                         match dict_get k other with
                         | Some v => pd_set (VStr k) v acc
                         | None => acc
                         end) ks config) <> None.
Proof.
  revert config. induction ks as [|k ks IH]; simpl; intros config Hu.
  - exact Hu.
  - apply IH. destruct (dict_get k other); [now apply pd_set_keeps|exact Hu].
Qed.

Lemma py_update_keeps (u : value) (config config' : pydict)
    (config_data : value) :
  py_update config config_data = Ret config' ->
  pd_get u config <> None -> pd_get u config' <> None.
Proof.
  destruct config_data as [| | |s|seq|other]; simpl; try discriminate.
  - apply update_from_pairs_keeps.
  - apply update_from_pairs_keeps.
  - intros H Hu. inversion H; subst. now apply update_from_keys_keeps.
Qed.

(** The closed form of [load_config]. *)
Lemma load_config_run (S : Type) (SCRIPT_DIR : string)
    (read_json : string -> result value) (config_path : option string)
    (s : S) :
  load_config SCRIPT_DIR read_json config_path s
  = (Ret match read_json match config_path with
                         | None => (SCRIPT_DIR ++ "/config.json")%string
                         | Some p => p
                         end with
         | Raise _ => DEFAULT_CONFIG
         | Ret config_data =>
             match py_update DEFAULT_CONFIG config_data with
             | Ret config => config
             | Raise _ => DEFAULT_CONFIG
             end
         end, s).
Proof.
  unfold load_config, try_except, bind, of_result, ret.
  destruct (read_json _) as [config_data|e].
  - destruct (py_update DEFAULT_CONFIG config_data) as [config|e];
      [reflexivity|].
    destruct e as [| | | | | | | | | |name]; try reflexivity.
    destruct name as [|c name]; [reflexivity|].
    repeat (match goal with
            | |- context [match ?x with _ => _ end] => destruct x
            end; try reflexivity).
  - destruct e as [| | | | | | | | | |name]; try reflexivity.
    destruct name as [|c name]; [reflexivity|].
    repeat (match goal with
            | |- context [match ?x with _ => _ end] => destruct x
            end; try reflexivity).
Qed.

(** X15. [load_config] never raises, whatever the file system and the file
    hold, and the configuration it returns has a value for each of the
    four keys of [DEFAULT_CONFIG]: a file can override or add settings,
    never remove one. *)
Theorem load_config_always_has_default_keys (S : Type) (SCRIPT_DIR : string)
    (read_json : string -> result value) (config_path : option string)
    (s : S) :
  exists config : pydict,
    load_config SCRIPT_DIR read_json config_path s = (Ret config, s) /\
    Forall (fun entry => pd_get (fst entry) config <> None) DEFAULT_CONFIG.
Proof.
  rewrite load_config_run. eexists. split; [reflexivity|].
  assert (Hdef : Forall (fun entry => pd_get (fst entry) DEFAULT_CONFIG <> None)
                   DEFAULT_CONFIG)
    by (repeat constructor; discriminate).
  destruct (read_json _) as [config_data|e]; [|exact Hdef].
  destruct (py_update DEFAULT_CONFIG config_data) as [config|e] eqn:E;
    [|exact Hdef].
  eapply Forall_impl; [|exact Hdef].
  intros entry Hentry. exact (py_update_keeps _ _ _ E Hentry).
Qed.

(** X16. When the file cannot be opened or decoded, or decodes to a value
    that is not iterable ([null], a number, a boolean) or to a str with
    characters, [load_config] returns [DEFAULT_CONFIG] itself. *)
Theorem load_config_falls_back_to_defaults (S : Type) (SCRIPT_DIR : string)
    (read_json : string -> result value) (config_path : option string)
    (s : S) :
  (exists e, read_json (config_file SCRIPT_DIR config_path) = Raise e)
  \/ (exists config_data,
        read_json (config_file SCRIPT_DIR config_path) = Ret config_data
        /\ unusable_top_level config_data = true) ->
  load_config SCRIPT_DIR read_json config_path s = (Ret DEFAULT_CONFIG, s).
Proof.
  intro H. rewrite load_config_run. fold (config_file SCRIPT_DIR config_path).
  destruct H as [[e ->]|(config_data & -> & Hbad)]; [reflexivity|].
  destruct config_data as [| | |str| |]; try discriminate; try reflexivity.
  destruct str as [|c str]; [discriminate|].
  simpl. destruct str; reflexivity.
Qed.

Lemma load_config_falls_back_to_defaults_witness :
  load_config (S := unit) "/srv/cabbage"
    (Scenarios2.one_file "/srv/cabbage/config.json" (Ret (VInt 3)))
    (Some "/etc/cabbage.json"%string) tt = (Ret DEFAULT_CONFIG, tt)
  /\ load_config (S := unit) "/srv/cabbage"
       (Scenarios2.one_file "/srv/cabbage/config.json" (Ret (VInt 3)))
       None tt = (Ret DEFAULT_CONFIG, tt).
Proof.
  split.
  - apply (@load_config_falls_back_to_defaults unit "/srv/cabbage"
             (Scenarios2.one_file "/srv/cabbage/config.json" (Ret (VInt 3)))
             (Some "/etc/cabbage.json"%string) tt).
    left. exists (OtherException "FileNotFoundError"). reflexivity.
  - apply (@load_config_falls_back_to_defaults unit "/srv/cabbage"
             (Scenarios2.one_file "/srv/cabbage/config.json" (Ret (VInt 3)))
             None tt).
    right. exists (VInt 3). split; reflexivity.
Defined.

Lemma dict_get_not_in {V : Type} (key : string) (d : dict V) :
  existsb (String.eqb key) (keys d) = false -> dict_get key d = None.
Proof.
  unfold keys. induction d as [|[k v] d IH]; simpl; [reflexivity|].
  destruct (key =? k)%string; simpl; [discriminate|exact IH].
Qed.

(** Updating from the keys [ks] of a dict: the keys among [ks] take
    the value of the dict, the others keep theirs. *)
Lemma update_from_keys_get (key : string) (other : dict value)
    (ks : list string) (config : pydict) :
  pd_get (VStr key)
    (fold_left (fun acc k =>
                  match dict_get k other with
                  | Some v => pd_set (VStr k) v acc
                  | None => acc
                  end) ks config)
  = match (if existsb (String.eqb key) ks then dict_get key other else None)
    with
    | Some v => Some v
    | None => pd_get (VStr key) config
    end.
Proof.
  revert config. induction ks as [|k ks IH]; intro config; simpl;
    [reflexivity|].
  rewrite IH. clear IH.
  destruct (key =? k)%string eqn:E.
  - apply String.eqb_eq in E. subst k. simpl.
    destruct (existsb (String.eqb key) ks);
      destruct (dict_get key other) as [v|]; try reflexivity.
    apply pd_get_set_str_same.
  - simpl. assert (Hne : key <> k)
      by (intros ->; rewrite String.eqb_refl in E; discriminate).
    assert (Hsame : pd_get (VStr key)
                      match dict_get k other with
                      | Some v => pd_set (VStr k) v config
                      | None => config
                      end = pd_get (VStr key) config).
    { destruct (dict_get k other); [|reflexivity].
      now apply pd_get_set_str_other. }
    now rewrite Hsame.
Qed.

(** X17. When the file holds a JSON object, the configuration is the
    defaults overridden key by key: a key of the file has the value of
    the file, of whatever type, and a key missing from the file keeps
    its default; the settings that the server reads at startup follow
    the same rule. *)
Theorem load_config_overrides_defaults (S : Type) (SCRIPT_DIR : string)
    (read_json : string -> result value) (config_path : option string)
    (s : S) (other : dict value) :
  read_json (config_file SCRIPT_DIR config_path) = Ret (VDict other) ->
  exists config : pydict,
    load_config SCRIPT_DIR read_json config_path s = (Ret config, s) /\
    (forall key : string,
       pd_get (VStr key) config
       = match dict_get key other with
         | Some v => Some v
         | None => pd_get (VStr key) DEFAULT_CONFIG
         end) /\
    (forall key : string,
       ApiServer.setting key config
       = match dict_get key other with
         | Some v => v
         | None => ApiServer.default_of key
         end).
Proof.
  intro Hread. rewrite load_config_run.
  fold (config_file SCRIPT_DIR config_path). rewrite Hread.
  simpl py_update. cbv iota.
  eexists. split; [reflexivity|].
  assert (Hget : forall key : string,
             pd_get (VStr key) (update_from_dict other DEFAULT_CONFIG)
             = match dict_get key other with
               | Some v => Some v
               | None => pd_get (VStr key) DEFAULT_CONFIG
               end).
  { intro key. unfold update_from_dict. rewrite update_from_keys_get.
    destruct (existsb (String.eqb key) (keys other)) eqn:E; [reflexivity|].
    now rewrite (dict_get_not_in _ _ E). }
  split; [exact Hget|].
  intro key. unfold ApiServer.setting, pd_get_default. rewrite Hget.
  destruct (dict_get key other); [reflexivity|].
  unfold ApiServer.default_of, pd_get_default.
  destruct (pd_get (VStr key) DEFAULT_CONFIG); reflexivity.
Qed.

Lemma load_config_overrides_defaults_witness :
  exists config : pydict,
    load_config (S := unit) "/srv/cabbage"
      (Scenarios2.one_file "/srv/cabbage/config.json"
         (Ret Scenarios2.partial_config))
      None tt = (Ret config, tt) /\
    (forall key : string,
       pd_get (VStr key) config
       = match dict_get key [("summary_sentences_count"%string, VInt 7);
                             ("theme"%string, VStr "dark")] with
         | Some v => Some v
         | None => pd_get (VStr key) DEFAULT_CONFIG
         end) /\
    (forall key : string,
       ApiServer.setting key config
       = match dict_get key [("summary_sentences_count"%string, VInt 7);
                             ("theme"%string, VStr "dark")] with
         | Some v => v
         | None => ApiServer.default_of key
         end).
Proof.
  apply (@load_config_overrides_defaults unit "/srv/cabbage"
           (Scenarios2.one_file "/srv/cabbage/config.json"
              (Ret Scenarios2.partial_config))
           None tt
           [("summary_sentences_count"%string, VInt 7);
            ("theme"%string, VStr "dark")]).
  reflexivity.
Defined.

(** The settings of a server started on a file that sets the sentence
    count only. *)
Example startup_settings_partial_file :
  ApiServer.startup_settings
    (match fst (load_config (S := unit) "/srv/cabbage"
                  (Scenarios2.one_file "/srv/cabbage/config.json"
                     (Ret Scenarios2.partial_config)) None tt) with
     | Ret config => config
     | Raise _ => []
     end)
  = (VInt 5, VInt 7, VStr "mistral-small-latest", VInt 150).
Proof. reflexivity. Qed.

End ConfigFacts.

(* ===================================================================== *)
(** ** api_server.py: perform_search                                      *)
(* ===================================================================== *)

Module ApiFacts.

Import SearchModule MainProcessor ApiServer.
Import PyFacts SearchFacts PipelineFacts.

Lemma perform_search_after (env : environment)
    (num_results summary_sentences : Z) (model : string) (max_tokens : Z)
    (query : string) (t t' : trace) (r : result value) :
  process_query env query num_results summary_sentences model max_tokens t
    = (r, t') ->
  perform_search env num_results summary_sentences model max_tokens query t
  = (match r with
     | Ret v =>
         Ret (if truthy v
              then VDict [("query"%string, VStr query); ("summary"%string, v)]
              else soft_failure query)
     | Raise _ => Raise (OtherException "HTTPException")
     end, t').
Proof.
  intro H. unfold perform_search, try_except, bind. rewrite H.
  destruct r as [v|e]; [destruct (truthy v)|]; reflexivity.
Qed.

(** X18. What the server answers to a search follows the outcome of
    [process_query].  When the pipeline returns, the response either
    carries a summary that is a non-empty string, or carries [None] as
    summary together with the message, which is what both the empty
    string and the empty dict of a search without URLs become.  When
    the pipeline raises, and only then, the handler answers with the
    exception of status 500. *)
Theorem perform_search_response (env : environment)
    (num_results summary_sentences : Z) (model : string) (max_tokens : Z)
    (query : string) (t : trace) :
  exists (r resp : result value) (t' : trace),
    process_query env query num_results summary_sentences model max_tokens t
      = (r, t') /\
    perform_search env num_results summary_sentences model max_tokens query t
      = (resp, t') /\
    match r with
    | Ret v =>
        (exists s : string,
           v = VStr s /\ s <> EmptyString /\
           resp = Ret (VDict [("query"%string, VStr query);
                              ("summary"%string, VStr s)]))
        \/ ((v = VDict [] \/ v = VStr EmptyString)
            /\ resp = Ret (soft_failure query))
    | Raise _ => resp = Raise (OtherException "HTTPException")
    end.
Proof.
  destruct (process_query env query num_results summary_sentences model
              max_tokens t) as [r t'] eqn:Hrun.
  exists r. do 2 eexists. split; [reflexivity|].
  split; [apply perform_search_after; exact Hrun|].
  destruct r as [v|e]; [|reflexivity].
  destruct (Pipeline.process_query_returns _ _ _ _ _ _ _ Hrun) as [->|[s ->]].
  - right. auto.
  - destruct s as [|c s].
    + right. auto.
    + left. exists (String c s). repeat split. discriminate.
Qed.

(** X19. An outage of the search provider is answered like a search without
    results: the response with [None] as summary and the message, after
    the one search and nothing else. *)
Theorem perform_search_provider_outage (env : environment)
    (num_results summary_sentences : Z) (model : string) (max_tokens : Z)
    (query : string) (t : trace) (e : exn) :
  ddgs_text env (t ++ [EvSearch query num_results]) query num_results
    = Raise e ->
  perform_search env num_results summary_sentences model max_tokens query t
  = (Ret (soft_failure query), t ++ [EvSearch query num_results]).
Proof.
  intro Hdown.
  assert (Hsearch : search_urls env query num_results t
                    = (Ret [], t ++ [EvSearch query num_results])).
  { rewrite search_urls_run. cbv zeta. now rewrite Hdown. }
  assert (Hrun : process_query env query num_results summary_sentences model
                   max_tokens t
                 = (Ret (VDict []), t ++ [EvSearch query num_results]))
    by (apply process_query_no_urls; exact Hsearch).
  apply perform_search_after in Hrun. exact Hrun.
Qed.

Lemma perform_search_provider_outage_witness :
  perform_search Scenarios.env_provider_down 5 50 "mistral-small-latest" 150
    "cabbage" []
  = (Ret (soft_failure "cabbage"), [] ++ [EvSearch "cabbage" 5]).
Proof.
  apply (@perform_search_provider_outage Scenarios.env_provider_down 5 50
           "mistral-small-latest" 150 "cabbage" []
           (OtherException "RatelimitException")).
  reflexivity.
Defined.

End ApiFacts.

(* ===================================================================== *)
(** ** Exceptions that leave the pipeline                                 *)
(* ===================================================================== *)

Module EscapeFacts.

Import SearchModule Scraper MainProcessor ApiServer.
Import PyFacts SearchFacts ScraperFacts DictFacts StageFacts PipelineFacts.

(** X20. The outcome of [scrape_website], by the step at which the
    browser fails.  When no session can be started it returns [None]
    and nothing was acquired.  Otherwise [driver.quit()] is called once,
    after the page work, whether navigation, the wait for the body or
    the read of the page source raised or not.  When the quit returns,
    the result is the page source if all three steps succeeded and
    [None] if one of them raised, and the open sessions are those open
    before the call.  When the quit raises, its exception leaves
    [scrape_website] and the session stays open. *)
Theorem scrape_website_by_cases (env : environment) (url : string)
    (wait_timeout : Z) (t : trace) :
  let t1 := t ++ [EvScrape url] in
  let d := List.length t1 in
  let t2 := t1 ++ [EvDriverStart d] in
  scrape_website env url wait_timeout t =
    match chrome_start env t1 with
    | Some _ => (Ret None, t1)
    | None =>
        match quit_error env t2 d with
        | Some e => (Raise e, t2)
        | None =>
            (Ret match navigate env t2 d url,
                       wait_body env t2 d wait_timeout,
                       page_source env t2 d with
                 | None, None, Ret src => Some src
                 | _, _, _ => None
                 end,
             t2 ++ [EvDriverQuit d])
        end
    end
  /\ open_drivers t1 = open_drivers t
  /\ open_drivers t2 = d :: open_drivers t
  /\ open_drivers (t2 ++ [EvDriverQuit d]) = open_drivers t.
Proof.
  intros t1 d t2. split; [apply scrape_website_run|].
  unfold t2, t1. rewrite !open_drivers_app. simpl.
  rewrite Nat.eqb_refl. auto.
Qed.

(** The extraction loop raises as soon as the extractor raises on one
    of the entries that hold markup. *)
Lemma extract_loop_raises (env : environment)
    (items : list (string * option string)) (u html : string) (e : exn)
    (extracted_texts : dict (option string)) (t : trace) :
  In (u, Some html) items ->
  truthy_str html = true ->
  trafilatura_extract env html = Raise e ->
  exists (e' : exn) (t' : trace),
    extract_loop env items extracted_texts t = (Raise e', t').
Proof.
  intros Hin Hmark Hraise.
  assert (Hloop : forall extracted_texts t r t',
             extract_loop env items extracted_texts t = (r, t') ->
             exists e', r = Raise e').
  { clear extracted_texts t.
    induction items as [|[url h] items IH]; [contradiction|].
    intros extracted_texts t r t'. cbn [extract_loop].
    destruct Hin as [Heq|Hin].
    - injection Heq as -> ->. rewrite Hmark.
      unfold bind, emit, of_result. rewrite Hraise.
      intro H. injection H as <- _. eauto.
    - specialize (IH Hin). destruct h as [h|]; [|apply IH].
      destruct (truthy_str h); [|apply IH].
      unfold bind, emit, of_result.
      destruct (trafilatura_extract env h) as [x|e0].
      + destruct (truthy_opt x); apply IH.
      + intro H. injection H as <- _. eauto. }
  destruct (extract_loop env items extracted_texts t) as [r t'] eqn:E.
  destruct (Hloop _ _ _ _ E) as [e' ->]. eauto.
Qed.

(** X21. When every fetch returned and the extractor raises on the
    markup of one of the pages, the exception leaves [process_query],
    nothing is summarized and no refinement request is sent, and the
    server answers the search with the exception of status 500. *)
Theorem extractor_failure_is_server_error (env : environment)
    (num_results summary_sentences : Z) (model : string) (max_tokens : Z)
    (query : string) (t : trace) (urls : list string)
    (scraped_data : dict (option string)) (t2 : trace) (u html : string)
    (e : exn) :
  search_urls env query num_results t
    = (Ret urls, t ++ [EvSearch query num_results]) ->
  urls <> [] ->
  fetch_loop env urls [] (t ++ [EvSearch query num_results])
    = (Ret scraped_data, t2) ->
  In (u, Some html) scraped_data ->
  truthy_str html = true ->
  trafilatura_extract env html = Raise e ->
  exists (e' : exn) (t' : trace),
    process_query env query num_results summary_sentences model max_tokens t
      = (Raise e', t') /\
    perform_search env num_results summary_sentences model max_tokens query t
      = (Raise (OtherException "HTTPException"), t') /\
    post_calls t' = post_calls t /\
    summarized_corpora t' = summarized_corpora t.
Proof.
  intros Hsearch Hne Hfetch Hin Hmark Hraise.
  destruct (extract_loop_outcome env scraped_data [] t2)
    as (r & called & Hext & _).
  destruct (@extract_loop_raises env scraped_data u html e [] t2 Hin Hmark
              Hraise) as (e' & t' & He').
  rewrite He' in Hext. injection Hext as <- ->.
  assert (Hrun : process_query env query num_results summary_sentences model
                   max_tokens t
                 = (Raise e', t2 ++ map (fun p => EvExtract (fst p)) called)).
  { unfold process_query. unfold bind at 1. rewrite Hsearch.
    destruct urls as [|u0 urls]; [now elim Hne|].
    unfold bind at 1. rewrite Hfetch. unfold bind at 1. now rewrite He'. }
  exists e'. eexists. split; [exact Hrun|].
  split; [pose proof Hrun as Hrun'; apply ApiFacts.perform_search_after in Hrun'; exact Hrun'|].
  destruct (fetch_loop_run _ _ _ _ Hfetch) as (evs & -> & _ & Hq & _).
  pose proof (extract_events_quiet fst called) as Hq'.
  rewrite !post_calls_app, !summarized_corpora_app,
    (quiet_posts Hq), (quiet_posts Hq'), (quiet_corpora Hq),
    (quiet_corpora Hq').
  simpl. now rewrite !app_nil_r.
Qed.

Lemma extractor_failure_is_server_error_witness :
  exists (e' : exn) (t' : trace),
    process_query Scenarios2.env_extractor_raises "q" 5 50
      "mistral-small-latest" 150 [] = (Raise e', t') /\
    perform_search Scenarios2.env_extractor_raises 5 50
      "mistral-small-latest" 150 "q" []
      = (Raise (OtherException "HTTPException"), t') /\
    post_calls t' = post_calls [] /\
    summarized_corpora t' = summarized_corpora [].
Proof.
  apply (@extractor_failure_is_server_error Scenarios2.env_extractor_raises
           5 50 "mistral-small-latest" 150 "q" [] ["u"%string]
           [("u"%string, Some "<html>u</html>"%string)]
           [EvSearch "q" 5; EvScrape "u"; EvDriverStart 2; EvDriverQuit 2]
           "u" "<html>u</html>" TypeError).
  - reflexivity.
  - discriminate.
  - reflexivity.
  - left. reflexivity.
  - reflexivity.
  - reflexivity.
Defined.

End EscapeFacts.
